(** * Correlation cost layer (tensorflow_addons/layers/optical_flow.py)

    A shallow embedding of the Python wrapper around the correlation cost
    custom op: the forward wrapper [_correlation_cost], the registered
    gradient [_correlation_cost_grad] and the Keras layer [CorrelationCost]
    with its constructor, [call], [compute_output_shape] and [get_config].

    Python integers are unbounded, so they are [Z]; [//] is floor division,
    which is [Z.div] whenever the divisor is non-zero and raises
    [ZeroDivisionError] otherwise.  Exceptions are an explicit result type.
    The compiled kernels of the op library are not Python code: the wrapper is
    embedded over arbitrary kernels (section variables), and a model of them
    that follows the design document is given in [SpecKernel]. *)

From Stdlib Require Import ZArith Lia.
From stdpp Require Import base option list gmap strings fin_maps.

Local Open Scope string_scope.
Local Open Scope Z_scope.
Local Open Scope list_scope.

(** ** Exceptions and fallible computations *)

Inductive exn : Type :=
  | ValueError (msg : string)
  | IndexError
  | ZeroDivisionError
  | AssertionError
  | TypeError
  | InvalidArgumentError (msg : string).

Inductive result (A : Type) : Type :=
  | Ok (a : A)
  | Raise (e : exn).
Arguments Ok {A} a.
Arguments Raise {A} e.

#[global] Instance result_ret : MRet result := fun _ a => Ok a.
#[global] Instance result_bind : MBind result := fun _ _ f m =>
  match m with
  | Ok a => f a
  | Raise e => Raise e
  end.
#[global] Instance result_fmap : FMap result := fun _ _ f m =>
  match m with
  | Ok a => Ok (f a)
  | Raise e => Raise e
  end.

(** [l[i]] for a non-negative literal index: [IndexError] out of range. *)
Definition index {A} (l : list A) (i : nat) : result A :=
  match l !! i with
  | Some x => Ok x
  | None => Raise IndexError
  end.

(** [a // b] on Python integers. *)
Definition floordiv (a b : Z) : result Z :=
  if b =? 0 then Raise ZeroDivisionError else Ok (a / b).

(** [for x in l: body(x)], leaving the loop at the first exception. *)
Fixpoint for_each {A} (l : list A) (body : A -> result unit) : result unit :=
  match l with
  | [] => Ok tt
  | x :: l' => body x ≫= fun _ => for_each l' body
  end.

(** [range(n)] *)
Definition range (n : nat) : list nat := seq 0 n.

(** ** The messages of the [ValueError]s the module raises *)

(** Adjacent string literals are concatenated without a space. *)
Definition msg_data_format : string :=
  ("`data_format` must be either `channels_last` or" ++ "`channels_first`")%string.
Definition msg_data_format_got (data_format : string) : string :=
  ("`data_format` must be either `channels_last` or"
   ++ "`channels_first`, instead got " ++ data_format)%string.
Definition msg_two_tensors : string :=
  "Input must be a list of two Tensors to process".
Definition msg_two_shapes : string := "Input must be a list of two shapes".
Definition msg_shapes_match : string := "Input shapes must match".

(** ** Python values stored in a configuration dictionary *)

Inductive value : Type :=
  | VInt (z : Z)
  | VStr (s : string).

(** [dict(items)]: a later item replaces an earlier one with the same key. *)
Definition dict_of_items (items : list (string * value)) : gmap string value :=
  fold_left (fun d kv => <[kv.1 := kv.2]> d) items ∅.

(** ** Tensors and the framework state *)

(** A shape is a tuple of integers, read by position; a dimension that is
    not known statically is outside the model. *)
Abbreviation Shape := (list Z).

(** [[l[p] for p in perm]] *)
Definition permute {A} (d : A) (perm : list nat) (l : list A) : list A :=
  map (fun p => nth p l d) perm.

(** The position of axis [m] in [perm]. *)
Fixpoint position (m : nat) (perm : list nat) : nat :=
  match perm with
  | [] => 0%nat
  | p :: ps => if (p =? m)%nat then 0%nat else S (position m ps)
  end.

(** The index read by a transposed tensor at [idx]: axis [perm[i]] of the
    source is axis [i] of the result. *)
Definition source_index (perm : list nat) (idx : list Z) : list Z :=
  map (fun m => nth (position m perm) idx 0) (range (length perm)).

Section OpticalFlow.

(** The element type of a tensor (a floating point format); nothing in the
    wrapper computes with elements. *)
Variable elt : Type.

(** A dense tensor: its shape and its element at each index. *)
Record Tensor : Type := mkTensor {
  shape : Shape;
  at_ : list Z -> elt
}.

(** [tf.convert_to_tensor] of what is a tensor already. *)
Definition convert_to_tensor (t : Tensor) : Tensor := t.

(** [tf.transpose(t, perm)]: axis [i] of the result is axis [perm[i]] of
    [t]; the ranks have to agree. *)
Definition transpose (t : Tensor) (perm : list nat) : result Tensor :=
  if (length (shape t) =? length perm)%nat
  then Ok (mkTensor (permute 0 perm (shape t))
                    (fun idx => at_ t (source_index perm idx)))
  else Raise (InvalidArgumentError "transpose: rank mismatch").

(** The attributes an op of the library is called with. *)
Record Attrs : Type := mkAttrs {
  attr_kernel_size : Z;
  attr_max_displacement : Z;
  attr_stride_1 : Z;
  attr_stride_2 : Z;
  attr_pad : Z;
  attr_data_format : string
}.

(** The two ops of [_correlation_cost_ops.so].  They are compiled kernels,
    pure functions of their inputs and attributes. *)
Variable addons_correlation_cost : Tensor -> Tensor -> Attrs -> result Tensor.
Variable addons_correlation_cost_grad :
  Tensor -> Tensor -> Tensor -> Attrs -> result (list Tensor).

(** An invocation of the op library, as observed from outside. *)
Inductive op_call : Type :=
  | CallCorrelationCost (input_a input_b : Tensor) (attrs : Attrs)
  | CallCorrelationCostGrad (input_a input_b grad_output : Tensor)
      (attrs : Attrs).

(** The process-wide state of the framework the module touches: the stack
    of name scopes, and the table of gradient functions keyed by op type. *)
Record World : Type := mkWorld {
  name_scopes : list string;
  gradient_registry : list string
}.

(** [@tf.RegisterGradient("Addons>CorrelationCost")], run once when the
    module is imported. *)
Definition register_gradient (w : World) : World :=
  mkWorld (name_scopes w) ("Addons>CorrelationCost" :: gradient_registry w).

(** Computations that may raise, that act on the process state, and whose
    invocations of the op library are observed, in order. *)
Definition M (A : Type) : Type := World -> result A * World * list op_call.

Definition run {A} (m : M A) (w : World) : result A * World * list op_call :=
  m w.

(** The three components of a run: what it returned or raised, the process
    state it left, the invocations of the op library it made. *)
Definition outcome {A} (o : result A * World * list op_call) : result A :=
  o.1.1.

Definition final {A} (o : result A * World * list op_call) : World := o.1.2.

Definition trace {A} (o : result A * World * list op_call) : list op_call :=
  o.2.

#[global] Instance M_ret : MRet M := fun _ a w => (Ok a, w, []).
#[global] Instance M_bind : MBind M := fun _ _ f m w =>
  match m w with
  | (Ok a, w', tr) => let '(r, w'', tr') := f a w' in (r, w'', tr ++ tr')
  | (Raise e, w', tr) => (Raise e, w', tr)
  end.

Definition raise {A} (e : exn) : M A := fun w => (Raise e, w, []).
Definition lift {A} (r : result A) : M A := fun w => (r, w, []).

(** [with tf.name_scope(nm): body]: the scope is entered, and left again
    however the body ends. *)
Definition with_name_scope {A} (nm : string) (body : M A) : M A := fun w =>
  let '(r, w', tr) :=
    body (mkWorld (nm :: name_scopes w) (gradient_registry w)) in
  (r, mkWorld (tail (name_scopes w')) (gradient_registry w'), tr).

(** [name or default] *)
Definition name_or (name : option string) (default : string) : string :=
  match name with
  | Some s => if (s =? "")%string then default else s
  | None => default
  end.

(** Calling an op runs its kernel, and is observed. *)
Definition call_correlation_cost (a b : Tensor) (attrs : Attrs) : M Tensor :=
  fun w => (addons_correlation_cost a b attrs, w,
            [CallCorrelationCost a b attrs]).

Definition call_correlation_cost_grad (a b g : Tensor) (attrs : Attrs)
  : M (list Tensor) :=
  fun w => (addons_correlation_cost_grad a b g attrs, w,
            [CallCorrelationCostGrad a b g attrs]).

(** [_correlation_cost] *)
Definition _correlation_cost (input_a input_b : Tensor)
    (kernel_size max_displacement stride_1 stride_2 pad : Z)
    (data_format : string) (name : option string) : M Tensor :=
  with_name_scope (name_or name "correlation_cost") (
    op_data_format ←
      (if (data_format =? "channels_last")%string then mret "NHWC"
       else if (data_format =? "channels_first")%string then mret "NCHW"
       else raise (ValueError msg_data_format));
    ret ← call_correlation_cost input_a input_b
             (mkAttrs kernel_size max_displacement stride_1 stride_2 pad
                      op_data_format);
    if (data_format =? "channels_last")%string
    then lift (transpose ret [0; 2; 3; 1]%nat)
    else mret ret).

(** The forward op as the gradient function sees it: its attributes and
    its inputs. *)
Record Operation : Type := mkOperation {
  op_attrs : Attrs;
  op_inputs : list Tensor
}.

(** [_correlation_cost_grad], the gradient registered for
    [Addons>CorrelationCost]. *)
Definition _correlation_cost_grad (op : Operation) (grad_output : Tensor)
  : M (list Tensor) :=
  let kernel_size := attr_kernel_size (op_attrs op) in
  let max_displacement := attr_max_displacement (op_attrs op) in
  let stride_1 := attr_stride_1 (op_attrs op) in
  let stride_2 := attr_stride_2 (op_attrs op) in
  let pad := attr_pad (op_attrs op) in
  let data_format := attr_data_format (op_attrs op) in
  input_a ← lift (convert_to_tensor <$> index (op_inputs op) 0);
  input_b ← lift (convert_to_tensor <$> index (op_inputs op) 1);
  let grad_output_tensor := convert_to_tensor grad_output in
  grads ← call_correlation_cost_grad input_a input_b grad_output_tensor
             (mkAttrs kernel_size max_displacement stride_1 stride_2 pad
                      data_format);
  grad_input_a ← lift (convert_to_tensor <$> index grads 0);
  grad_input_b ← lift (convert_to_tensor <$> index grads 1);
  mret [grad_input_a; grad_input_b].

(** ** The layer object *)

(** The Keras base class [tf.keras.layers.Layer] is outside the module: its
    state, its constructor and its [get_config] are taken as given. *)
Variable KerasLayer : Type.
Variable Layer_init : gmap string value -> result KerasLayer.
Variable Layer_get_config : KerasLayer -> list (string * value).

Record CorrelationCost : Type := mkCorrelationCost {
  kernel_size : Z;
  max_displacement : Z;
  stride_1 : Z;
  stride_2 : Z;
  pad : Z;
  data_format : string;
  base : KerasLayer
}.

(** [CorrelationCost.__init__], on the integers and the string its
    docstring asks for: the five integers are stored unchecked, the layout
    tag is checked, the base class is initialised last. *)
Definition __init__ (kernel_size max_displacement stride_1 stride_2 pad : Z)
    (data_format : string) (kwargs : gmap string value)
  : result CorrelationCost :=
  if negb (data_format =? "channels_last")%string
     && negb (data_format =? "channels_first")%string
  then Raise (ValueError (msg_data_format_got data_format))
  else
    b ← Layer_init kwargs;
    Ok (mkCorrelationCost kernel_size max_displacement stride_1 stride_2 pad
          data_format b).

(** What is handed to [compute_output_shape]: a list of shapes, or anything
    else (a single shape), which the [assert] rejects. *)
Inductive shape_arg : Type :=
  | ShapeList (l : list Shape)
  | SingleShape (s : Shape).

(** [tf.keras.layers.Layer.build], which marks the base state as built. *)
Variable Layer_build : KerasLayer -> shape_arg -> result KerasLayer.

(** [CorrelationCost.build]: the argument has to be a list, of any
    length. *)
Definition build (self : CorrelationCost) (input_shape : shape_arg)
  : result CorrelationCost :=
  match input_shape with
  | SingleShape _ => Raise (ValueError msg_two_tensors)
  | ShapeList _ =>
    b ← Layer_build (base self) input_shape;
    Ok (mkCorrelationCost (kernel_size self) (max_displacement self)
          (stride_1 self) (stride_2 self) (pad self) (data_format self) b)
  end.

(** [input_shape[a][i]] *)
Definition shape_at (input_shape : list Shape) (a i : nat) : result Z :=
  s ← index input_shape a; index s i.

(** [CorrelationCost.compute_output_shape] *)
Definition compute_output_shape (self : CorrelationCost)
    (input_shape : shape_arg) : result (list Shape) :=
  match input_shape with
  | SingleShape _ => Raise AssertionError
  | ShapeList input_shape =>
    if negb (length input_shape =? 2)%nat
    then Raise (ValueError msg_two_shapes)
    else
      for_each (range 4) (fun idx =>
        a ← shape_at input_shape 0 idx;
        b ← shape_at input_shape 1 idx;
        if negb (a =? b) then Raise (ValueError msg_shapes_match) else Ok tt);;
      n ← shape_at input_shape 0 0;
      r ← floordiv (max_displacement self) (stride_2 self);
      k ← floordiv (kernel_size self - 1) 2;
      let bd := max_displacement self + k in
      let output_c := (2 * r + 1) ^ 2 in
      if (data_format self =? "channels_first")%string then
        h ← shape_at input_shape 0 2;
        dh ← floordiv (2 * (pad self - bd)) (stride_1 self);
        let output_h := h + dh in
        w ← shape_at input_shape 0 3;
        dw ← floordiv (2 * (pad self - bd)) (stride_1 self);
        let output_w := w + dw in
        Ok [[n; output_c; output_h; output_w]]
      else if (data_format self =? "channels_last")%string then
        h ← shape_at input_shape 0 1;
        dh ← floordiv (2 * (pad self - bd)) (stride_1 self);
        let output_h := h + dh in
        w ← shape_at input_shape 0 2;
        dw ← floordiv (2 * (pad self - bd)) (stride_1 self);
        let output_w := w + dw in
        Ok [[n; output_h; output_w; output_c]]
      else Raise (ValueError msg_data_format)
  end.

(** [CorrelationCost.get_config]: the six attributes, appended to the items
    of the base configuration; the receiver is returned as the call leaves
    it. *)
Definition get_config (self : CorrelationCost)
  : gmap string value * CorrelationCost :=
  let config :=
    [ ("kernel_size", VInt (kernel_size self));
      ("max_displacement", VInt (max_displacement self));
      ("stride_1", VInt (stride_1 self));
      ("stride_2", VInt (stride_2 self));
      ("pad", VInt (pad self));
      ("data_format", VStr (data_format self)) ] in
  let base_config := Layer_get_config (base self) in
  (dict_of_items (base_config ++ config), self).

(** What is handed to [build] and [call]: a list of tensors, or anything
    else (a single tensor). *)
Inductive call_arg : Type :=
  | TensorList (l : list Tensor)
  | SingleTensor (t : Tensor).

(** [CorrelationCost.call] *)
Definition call (self : CorrelationCost) (inputs : call_arg) : M Tensor :=
  match inputs with
  | SingleTensor _ => raise (ValueError msg_two_tensors)
  | TensorList inputs =>
    input_a ← lift (convert_to_tensor <$> index inputs 0);
    input_b ← lift (convert_to_tensor <$> index inputs 1);
    _correlation_cost input_a input_b (kernel_size self)
      (max_displacement self) (stride_1 self) (stride_2 self) (pad self)
      (data_format self) None
  end.

End OpticalFlow.

Arguments shape {elt} t.
Arguments at_ {elt} t idx.
Arguments mkTensor {elt} shape at_.
Arguments convert_to_tensor {elt} t.
Arguments transpose {elt} t perm.
Arguments outcome {elt A} o.
Arguments final {elt A} o.
Arguments trace {elt A} o.
Arguments CallCorrelationCost {elt} input_a input_b attrs.
Arguments CallCorrelationCostGrad {elt} input_a input_b grad_output attrs.
Arguments run {elt A} m w.
Arguments raise {elt A} e w.
Arguments lift {elt A} r w.
Arguments with_name_scope {elt A} nm body w.
Arguments op_attrs {elt} o.
Arguments op_inputs {elt} o.
Arguments mkOperation {elt} op_attrs op_inputs.
Arguments TensorList {elt} l.
Arguments SingleTensor {elt} t.
Arguments kernel_size {KerasLayer} c.
Arguments max_displacement {KerasLayer} c.
Arguments stride_1 {KerasLayer} c.
Arguments stride_2 {KerasLayer} c.
Arguments pad {KerasLayer} c.
Arguments data_format {KerasLayer} c.
Arguments base {KerasLayer} c.
Arguments mkCorrelationCost {KerasLayer}.
Arguments compute_output_shape {KerasLayer} self input_shape.
Arguments build {KerasLayer} Layer_build self input_shape.
Arguments get_config {KerasLayer} Layer_get_config self.
Arguments __init__ {KerasLayer} Layer_init.
Arguments call {elt} addons_correlation_cost {KerasLayer} self inputs w.
Arguments _correlation_cost {elt} addons_correlation_cost.
Arguments _correlation_cost_grad {elt} addons_correlation_cost_grad.

(** ** The kernels, after the design document

    The compiled kernels behind [addons_correlation_cost] and
    [addons_correlation_cost_grad] are C++ and CUDA code.  The definitions of
    this module follow the design document of the operator instead
    (ShapeInference, LayoutAdapter, ForwardCorrelation, BackwardCorrelation),
    over an element type with a zero, an addition and a product of which no
    law is assumed: sums are taken in the order of the enumeration. *)

Module SpecKernel.

(** Modelled from the spec: the integer ranges the missing kernels iterate
    over, [lo, lo+1, ..., hi-1]. *)
Definition zrange (lo hi : Z) : list Z :=
  map (fun k => lo + Z.of_nat k) (seq 0 (Z.to_nat (hi - lo))).

(** Modelled from the spec: the error kind ShapeMismatch of the missing
    kernels, reported as an invalid-argument status. *)
Definition ShapeMismatch : exn := InvalidArgumentError "ShapeMismatch".

(** Modelled from the spec: the error kind InvalidGeometry of the missing
    kernels. *)
Definition InvalidGeometry : exn := InvalidArgumentError "InvalidGeometry".

(** Modelled from the spec: the error kind InvalidLayout of the missing
    kernels, for a layout tag that is neither NCHW nor NHWC. *)
Definition InvalidLayout : exn := InvalidArgumentError "InvalidLayout".

(** Modelled from the spec: the border [bd] of ShapeInference in the missing
    kernels, [max_displacement + (kernel_size - 1) / 2]. *)
Definition border (p : Attrs) : Z :=
  attr_max_displacement p + (attr_kernel_size p - 1) / 2.

(** Modelled from the spec: the displacement radius [r] of the missing
    kernels, [floor(max_displacement / stride_2)]. *)
Definition radius (p : Attrs) : Z := attr_max_displacement p / attr_stride_2 p.

(** Modelled from the spec: the half side of the patch of the missing
    kernels; the patch is centred, its offsets run over [-k..k]. *)
Definition half_kernel (p : Attrs) : Z := (attr_kernel_size p - 1) / 2.

(** Modelled from the spec: the output extent of the missing kernels,
    [H + 2*floor((pad - bd) / stride_1)]. *)
Definition out_extent (p : Attrs) (h : Z) : Z :=
  h + 2 * ((attr_pad p - border p) / attr_stride_1 p).

(** Modelled from the spec: ShapeInference of the missing kernels, on
    canonical (N, C, H, W) shapes.  It fails with ShapeMismatch
    when the two shapes differ, with InvalidGeometry when the kernel size is
    even or not positive, a stride is below 1 or an output extent is not
    positive. *)
Definition shape_inference (p : Attrs) (sa sb : Shape) : result Shape :=
  if negb (bool_decide (sa = sb)) then Raise ShapeMismatch
  else match sa with
  | [n; c; h; w] =>
    if (attr_kernel_size p <=? 0) || Z.even (attr_kernel_size p)
       || (attr_stride_1 p <? 1) || (attr_stride_2 p <? 1)
    then Raise InvalidGeometry
    else
      let r := radius p in
      if (out_extent p h <=? 0) || (out_extent p w <=? 0)
      then Raise InvalidGeometry
      else Ok [n; (2 * r + 1) ^ 2; out_extent p h; out_extent p w]
  | _ => Raise ShapeMismatch
  end.

(** Modelled from the spec: the anchor of the missing kernels, the position
    in the padded tensor of the centre of the patch of output coordinate
    [i], the border included. *)
Definition anchor (p : Attrs) (i : Z) : Z := i * attr_stride_1 p + border p.

(** Modelled from the spec: the output channel the missing kernels give to
    displacement (dy, dx). *)
Definition channel (p : Attrs) (dy dx : Z) : Z :=
  (dy + radius p) * (2 * radius p + 1) + (dx + radius p).

(** Modelled from the spec: the padding policy of the missing kernels,
    whether the padded coordinates (u, v) fall on the unpadded tensor. *)
Definition inside (p : Attrs) (h w u v : Z) : bool :=
  (attr_pad p <=? u) && (u <? attr_pad p + h)
  && (attr_pad p <=? v) && (v <? attr_pad p + w).

(** Modelled from the spec: one (n, i, j, dy, dx) of the iteration space of
    the missing kernels. *)
Record tuple : Type := mkTuple {
  t_n : Z; t_i : Z; t_j : Z; t_dy : Z; t_dx : Z
}.

#[global] Instance tuple_eq_dec : EqDecision tuple.
Proof. solve_decision. Defined.

(** Modelled from the spec: the iteration space of both passes of the
    missing kernels, batch, then output row and column, then the
    displacement grid. *)
Definition tuples (p : Attrs) (n h' w' : Z) : list tuple :=
  b ← zrange 0 n; i ← zrange 0 h'; j ← zrange 0 w';
  dy ← zrange (- radius p) (radius p + 1);
  dx ← zrange (- radius p) (radius p + 1);
  [mkTuple b i j dy dx].

(** Modelled from the spec: the channels and patch offsets (c, py, px) of the
    window of the missing kernels. *)
Definition window (p : Attrs) (c : Z) : list (Z * Z * Z) :=
  ch ← zrange 0 c;
  py ← zrange (- half_kernel p) (half_kernel p + 1);
  px ← zrange (- half_kernel p) (half_kernel p + 1);
  [(ch, py, px)].

(** Modelled from the spec: the shape, in the canonical layout of the
    missing kernels, of a feature map given in the layout of the caller. *)
Definition canonical_shape (tag : string) (s : Shape) : Shape :=
  if (tag =? "NHWC")%string then permute 0 [0; 3; 1; 2]%nat s else s.

(** Modelled from the spec: the index, in the layout of the caller, of the
    element the missing kernels address as (n, c, y, x). *)
Definition layout_index (tag : string) (n c y x : Z) : list Z :=
  if (tag =? "NHWC")%string then [n; y; x; c] else [n; c; y; x].

Section Kernel.

Variable elt : Type.
Variable zero : elt.
Variables add mul : elt -> elt -> elt.

(** Modelled from the spec: LayoutAdapter at the entry of the missing
    kernels, an axis permutation from the layout of the caller to the
    canonical channel-first layout. *)
Definition to_canonical (tag : string) (t : Tensor elt) : result (Tensor elt) :=
  if (tag =? "NCHW")%string then Ok t
  else if (tag =? "NHWC")%string then transpose t [0; 3; 1; 2]%nat
  else Raise InvalidLayout.

(** Modelled from the spec: LayoutAdapter at the exit of the missing
    kernels, from the canonical layout back to the layout of the caller. *)
Definition from_canonical (tag : string) (t : Tensor elt)
  : result (Tensor elt) :=
  if (tag =? "NCHW")%string then Ok t
  else if (tag =? "NHWC")%string then transpose t [0; 2; 3; 1]%nat
  else Raise InvalidLayout.

(** Modelled from the spec: a read, by the missing kernels, of the
    zero-padded tensor at padded coordinates; outside the unpadded extent it
    reads zero. *)
Definition padded (p : Attrs) (t : Tensor elt) (n c u v : Z) : elt :=
  match shape t with
  | [_; _; h; w] =>
    if inside p h w u v
    then at_ t [n; c; u - attr_pad p; v - attr_pad p]
    else zero
  | _ => zero
  end.

(** Modelled from the spec: the raw sum of the missing kernels, taken from
    the left, without normalisation. *)
Definition sum_list (l : list elt) : elt := fold_left add l zero.

(** Modelled from the spec: the correlation value of one tuple in the
    missing forward kernel, the sum over the window of the products of the
    patch of A centred at the anchor and the patch of B centred at the
    displaced anchor. *)
Definition correlation (p : Attrs) (a b : Tensor elt) (c : Z) (t : tuple)
  : elt :=
  let y := anchor p (t_i t) in
  let x := anchor p (t_j t) in
  sum_list (map (fun '(ch, py, px) =>
    mul (padded p a (t_n t) ch (y + py) (x + px))
        (padded p b (t_n t) ch (y + t_dy t * attr_stride_2 p + py)
                               (x + t_dx t * attr_stride_2 p + px)))
    (window p c)).

(** Modelled from the spec: ForwardCorrelation of the missing forward
    kernel on canonical inputs; channel [(dy+r)*(2r+1) + (dx+r)] of the
    cost volume holds the correlation of displacement (dy, dx). *)
Definition forward_core (p : Attrs) (a b : Tensor elt) (out : Shape)
  : Tensor elt :=
  mkTensor out (fun idx =>
    match idx, shape a with
    | [n; ch; i; j], [_; c; _; _] =>
      let w := 2 * radius p + 1 in
      correlation p a b c (mkTuple n i j (ch / w - radius p)
                                         (ch mod w - radius p))
    | _, _ => zero
    end).

(** Modelled from the spec: the missing forward kernel
    [addons_correlation_cost].  The adapter brings both
    inputs to the canonical layout, ShapeInference validates, and the cost
    volume is produced channel-first. *)
Definition forward (a b : Tensor elt) (p : Attrs) : result (Tensor elt) :=
  a' ← to_canonical (attr_data_format p) a;
  b' ← to_canonical (attr_data_format p) b;
  out ← shape_inference p (shape a') (shape b');
  Ok (forward_core p a' b' out).

(** Modelled from the spec: a contribution in the missing gradient kernel,
    the index of the element it lands on and its value. *)
Abbreviation contribution := (list Z * elt)%type.

(** Modelled from the spec: the contributions, in the missing gradient
    kernel, of one tuple to the gradient of A: for each (c, py, px), g * B[.., y+dy*stride_2+py, x+dx*stride_2+px]
    lands on A[n, c, y+py, x+px]; what would land on the padding is
    dropped. *)
Definition contributions_a (p : Attrs) (a b g : Tensor elt) (t : tuple)
  : list contribution :=
  match shape a with
  | [_; c; h; w] =>
    let y := anchor p (t_i t) in
    let x := anchor p (t_j t) in
    let gv := at_ g [t_n t; channel p (t_dy t) (t_dx t); t_i t; t_j t] in
    '(ch, py, px) ← window p c;
    if inside p h w (y + py) (x + px)
    then [([t_n t; ch; y + py - attr_pad p; x + px - attr_pad p],
           mul gv (padded p b (t_n t) ch
                     (y + t_dy t * attr_stride_2 p + py)
                     (x + t_dx t * attr_stride_2 p + px)))]
    else []
  | _ => []
  end.

(** Modelled from the spec: the contributions, in the missing gradient
    kernel, of one tuple to the gradient of B: g * A[.., y+py, x+px] lands on
    B[n, c, y+dy*stride_2+py, x+dx*stride_2+px]. *)
Definition contributions_b (p : Attrs) (a b g : Tensor elt) (t : tuple)
  : list contribution :=
  match shape b with
  | [_; c; h; w] =>
    let y := anchor p (t_i t) in
    let x := anchor p (t_j t) in
    let gv := at_ g [t_n t; channel p (t_dy t) (t_dx t); t_i t; t_j t] in
    '(ch, py, px) ← window p c;
    let u := y + t_dy t * attr_stride_2 p + py in
    let v := x + t_dx t * attr_stride_2 p + px in
    if inside p h w u v
    then [([t_n t; ch; u - attr_pad p; v - attr_pad p],
           mul gv (padded p a (t_n t) ch (y + py) (x + px)))]
    else []
  | _ => []
  end.

(** Modelled from the spec: the accumulation of one contribution into a
    gradient array of the missing gradient kernel.  An element no
    contribution reached is absent from the map and reads zero. *)
Definition accumulate (grad : gmap (list Z) elt) (k : contribution)
  : gmap (list Z) elt :=
  <[k.1 := add (default zero (grad !! k.1)) k.2]> grad.

(** Modelled from the spec: the accumulation loop of the missing gradient
    kernel over a list of contributions, in order. *)
Definition scatter_add (grad : gmap (list Z) elt) (l : list contribution)
  : gmap (list Z) elt :=
  fold_left accumulate l grad.

(** Modelled from the spec: every contribution, in the missing gradient
    kernel, of the iteration space to the gradient of A, enumerated as the
    forward pass enumerates its tuples. *)
Definition all_contributions_a (p : Attrs) (a b g : Tensor elt)
  : list contribution :=
  match shape g with
  | [n; _; h'; w'] => t ← tuples p n h' w'; contributions_a p a b g t
  | _ => []
  end.

(** Modelled from the spec: every contribution, in the missing gradient
    kernel, of the iteration space to the gradient of B. *)
Definition all_contributions_b (p : Attrs) (a b g : Tensor elt)
  : list contribution :=
  match shape g with
  | [n; _; h'; w'] => t ← tuples p n h' w'; contributions_b p a b g t
  | _ => []
  end.

(** Modelled from the spec: BackwardCorrelation of the missing gradient
    kernel on canonical inputs.  Every
    tuple of the iteration space adds its contributions to the gradient of
    A, of the shape of A, and to the gradient of B, of the shape of B. *)
Definition backward_core (p : Attrs) (a b g : Tensor elt)
  : Tensor elt * Tensor elt :=
  let grad_a := scatter_add ∅ (all_contributions_a p a b g) in
  let grad_b := scatter_add ∅ (all_contributions_b p a b g) in
  (mkTensor (shape a) (fun idx => default zero (grad_a !! idx)),
   mkTensor (shape b) (fun idx => default zero (grad_b !! idx))).

(** Modelled from the spec: the missing gradient kernel
    [addons_correlation_cost_grad].  Same validation as the
    forward kernel, and ShapeMismatch when the upstream gradient has not
    the shape of the cost volume; the two gradients are returned in the
    layout of the inputs, so that each has the shape of its input. *)
Definition backward (a b g : Tensor elt) (p : Attrs)
  : result (list (Tensor elt)) :=
  a' ← to_canonical (attr_data_format p) a;
  b' ← to_canonical (attr_data_format p) b;
  out ← shape_inference p (shape a') (shape b');
  if negb (bool_decide (shape g = out)) then Raise ShapeMismatch
  else
    let '(ga, gb) := backward_core p a' b' g in
    grad_a ← from_canonical (attr_data_format p) ga;
    grad_b ← from_canonical (attr_data_format p) gb;
    Ok [grad_a; grad_b].

(** Modelled from the spec: what the document calls a valid invocation of
    the backward pass of the missing gradient kernel: two 4-D inputs in a
    recognised layout that pass ShapeInference, and an upstream gradient of
    the shape of the cost volume. *)
Definition valid_invocation (p : Attrs) (a b g : Tensor elt) : Prop :=
  length (shape a) = 4%nat /\ length (shape b) = 4%nat
  /\ (attr_data_format p = "NCHW" \/ attr_data_format p = "NHWC")
  /\ shape_inference p (canonical_shape (attr_data_format p) (shape a))
                       (canonical_shape (attr_data_format p) (shape b))
     = Ok (shape g).

End Kernel.

Arguments valid_invocation {elt} p a b g.

End SpecKernel.

(** ** Derived notions used in the statements *)

(** The two layout tags the layer accepts. *)
Definition recognised (data_format : string) : Prop :=
  data_format = "channels_last" \/ data_format = "channels_first".

(** The same layer with another layout tag. *)
Definition with_data_format {K} (self : CorrelationCost K) (df : string)
  : CorrelationCost K :=
  mkCorrelationCost (kernel_size self) (max_displacement self)
    (stride_1 self) (stride_2 self) (pad self) df (base self).

(** The border [bd] that [compute_output_shape] computes. *)
Definition bd {K} (self : CorrelationCost K) : Z :=
  max_displacement self + (kernel_size self - 1) / 2.

(** The number of output channels that [compute_output_shape] computes. *)
Definition output_c {K} (self : CorrelationCost K) : Z :=
  (2 * (max_displacement self / stride_2 self) + 1) ^ 2.

(** The output extent that [compute_output_shape] computes from an input
    extent: [2 * (pad - bd) // stride_1] is the floor of the doubled
    difference. *)
Definition output_extent {K} (self : CorrelationCost K) (h : Z) : Z :=
  h + (2 * (pad self - bd self)) / stride_1 self.

(** The extent as the design document words it, [H + 2*floor((pad - bd) /
    stride_1)]: the floor is taken before the doubling. *)
Definition documented_extent {K} (self : CorrelationCost K) (h : Z) : Z :=
  h + 2 * ((pad self - bd self) / stride_1 self).

(** The parameter sets the design document calls an invalid geometry, for
    inputs of spatial extents [h] and [w]. *)
Definition invalid_geometry {K} (self : CorrelationCost K) (h w : Z) : bool :=
  (documented_extent self h <=? 0) || (documented_extent self w <=? 0)
  || Z.even (kernel_size self) || (kernel_size self <=? 0)
  || (stride_1 self <? 1) || (stride_2 self <? 1).

(** The constructor called with the six operator entries of a configuration
    as keyword arguments, next to the keyword arguments of the base
    class. *)
Definition from_config {K} (Layer_init : gmap string value -> result K)
    (config : gmap string value) (kwargs : gmap string value)
  : result (CorrelationCost K) :=
  match config !! "kernel_size", config !! "max_displacement",
        config !! "stride_1", config !! "stride_2", config !! "pad",
        config !! "data_format" with
  | Some (VInt ks), Some (VInt md), Some (VInt s1), Some (VInt s2),
    Some (VInt pd), Some (VStr df) =>
      __init__ Layer_init ks md s1 s2 pd df kwargs
  | _, _, _, _, _, _ => Raise TypeError
  end.

(** The six attributes of a layer. *)
Definition attributes {K} (self : CorrelationCost K)
  : Z * Z * Z * Z * Z * string :=
  (kernel_size self, max_displacement self, stride_1 self, stride_2 self,
   pad self, data_format self).

(** A layer over a trivial base class, for concrete evaluations. *)
Definition layer (ks md s1 s2 pd : Z) (df : string) : CorrelationCost unit :=
  mkCorrelationCost ks md s1 s2 pd df tt.

(** The same layer over another state of the base class. *)
Definition with_base {K} (self : CorrelationCost K) (b : K)
  : CorrelationCost K :=
  mkCorrelationCost (kernel_size self) (max_displacement self)
    (stride_1 self) (stride_2 self) (pad self) (data_format self) b.

(** The attributes the forward wrapper hands to the op. *)
Definition forward_attrs {K} (self : CorrelationCost K) (tag : string)
  : Attrs :=
  mkAttrs (kernel_size self) (max_displacement self) (stride_1 self)
    (stride_2 self) (pad self) tag.

(** A base class without state, for concrete evaluations. *)
Definition unit_init (kwargs : gmap string value) : result unit := Ok tt.

(** Its configuration, one entry of which uses a key of the layer. *)
Definition unit_get_config (b : unit) : list (string * value) :=
  [("name", VStr "correlation_cost"); ("pad", VStr "shadowed")].

(** An integer tensor whose element at an index is [k] plus the digits of
    the index read in base 10, for concrete evaluations. *)
Definition ramp (sh : Shape) (k : Z) : Tensor Z :=
  mkTensor sh (fun idx => fold_left (fun acc i => 10 * acc + i) idx 0 + k).

(** The shape [compute_output_shape] returns when it returns one, read off
    the first input shape: the batch axis, and the channel count and the two
    extents in the order of the layout of the layer. *)
Definition inferred_shape {K} (self : CorrelationCost K) (s : Shape) : Shape :=
  if (data_format self =? "channels_first")%string
  then [nth 0 s 0; output_c self; output_extent self (nth 2 s 0);
        output_extent self (nth 3 s 0)]
  else [nth 0 s 0; output_extent self (nth 1 s 0);
        output_extent self (nth 2 s 0); output_c self].

(** The same layer with another padding. *)
Definition with_pad {K} (self : CorrelationCost K) (pd : Z)
  : CorrelationCost K :=
  mkCorrelationCost (kernel_size self) (max_displacement self)
    (stride_1 self) (stride_2 self) pd (data_format self) (base self).

(** The outcome of [compute_output_shape] on two shapes of rank 4 or more,
    as a decision table in the order in which the source checks and
    computes: the four axes, [stride_2], the layout tag, [stride_1]. *)
Definition shape_table {K} (self : CorrelationCost K) (sa sb : Shape)
  : result (list Shape) :=
  if negb (bool_decide (take 4 sa = take 4 sb))
  then Raise (ValueError msg_shapes_match)
  else if stride_2 self =? 0 then Raise ZeroDivisionError
  else if negb (data_format self =? "channels_first")%string
          && negb (data_format self =? "channels_last")%string
  then Raise (ValueError msg_data_format)
  else if stride_1 self =? 0 then Raise ZeroDivisionError
  else Ok [inferred_shape self sa].

(** The entry of the layer itself in its configuration, under each of the six
    keys of [get_config]. *)
Definition config_entry {K} (self : CorrelationCost K) (k : string)
  : option value :=
  if (k =? "kernel_size")%string then Some (VInt (kernel_size self))
  else if (k =? "max_displacement")%string
  then Some (VInt (max_displacement self))
  else if (k =? "stride_1")%string then Some (VInt (stride_1 self))
  else if (k =? "stride_2")%string then Some (VInt (stride_2 self))
  else if (k =? "pad")%string then Some (VInt (pad self))
  else if (k =? "data_format")%string then Some (VStr (data_format self))
  else None.

(** A gradient kernel with three outputs, for concrete evaluations. *)
Definition three_outputs (a b g : Tensor Z) (attrs : Attrs)
  : result (list (Tensor Z)) :=
  Ok [b; a; g].

(** A gradient kernel with a single output, for concrete evaluations. *)
Definition one_output (a b g : Tensor Z) (attrs : Attrs)
  : result (list (Tensor Z)) :=
  Ok [g].

(** A base class whose [build] flips a flag, for concrete evaluations. *)
Definition flag_build (b : bool) (input_shape : shape_arg) : result bool :=
  Ok (negb b).

(** A base class without configuration entries, for concrete evaluations. *)
Definition empty_get_config (b : bool) : list (string * value) := [].

(** ** The scalar the gradients are gradients of *)

Section Loss.

Context {elt : Type}.
Variable zero : elt.
Variables add mul : elt -> elt -> elt.

(** The tensor [t] with [d] added to its element at index [e]. *)
Definition bump (t : Tensor elt) (e : list Z) (d : elt) : Tensor elt :=
  mkTensor (shape t)
    (fun idx => if bool_decide (idx = e) then add (at_ t idx) d else at_ t idx).

(** Modelled from the spec: the index, in the cost volume of the missing
    kernels, of the output element of a tuple. *)
Definition output_index (p : Attrs) (t : SpecKernel.tuple) : list Z :=
  [SpecKernel.t_n t;
   SpecKernel.channel p (SpecKernel.t_dy t) (SpecKernel.t_dx t);
   SpecKernel.t_i t; SpecKernel.t_j t].

(** Modelled from the spec: the scalar reduction of the output of the
    missing forward kernel against which the design document checks the
    gradients, the sum over the cost volume of the upstream gradient times
    the output of ForwardCorrelation. *)
Definition loss (p : Attrs) (a b g : Tensor elt) : elt :=
  match shape g with
  | [n; _; h'; w'] =>
    SpecKernel.sum_list elt zero add
      (map (fun t =>
              mul (at_ g (output_index p t))
                  (at_ (SpecKernel.forward_core elt zero add mul p a b
                          (shape g))
                       (output_index p t)))
           (SpecKernel.tuples p n h' w'))
  | _ => zero
  end.

(** The laws of a commutative semiring, under which a sum does not depend
    on the order of its terms. *)
Record semiring : Prop := mkSemiring {
  sr_add_comm : forall x y, add x y = add y x;
  sr_add_assoc : forall x y z, add x (add y z) = add (add x y) z;
  sr_add_0_l : forall x, add zero x = x;
  sr_mul_comm : forall x y, mul x y = mul y x;
  sr_mul_assoc : forall x y z, mul x (mul y z) = mul (mul x y) z;
  sr_mul_0_r : forall x, mul x zero = zero;
  sr_distr_l : forall x y z, mul x (add y z) = add (mul x y) (mul x z)
}.

End Loss.

(** * Properties *)

(** ** Shape inference *)

Lemma floordiv_nonzero a b : b <> 0 -> floordiv a b = Ok (a / b).
Proof.
  intros Hb. unfold floordiv.
  destruct (Z.eqb_spec b 0) as [E | _]; [contradiction | reflexivity].
Qed.

Lemma floordiv_two a : floordiv a 2 = Ok (a / 2).
Proof. reflexivity. Qed.

(** The validation loop lets two equal 4-tuples through. *)
Lemma shapes_match_refl (a b c d : Z) :
  for_each (range 4) (fun idx =>
    x ← shape_at [[a; b; c; d]; [a; b; c; d]] 0 idx;
    y ← shape_at [[a; b; c; d]; [a; b; c; d]] 1 idx;
    if negb (x =? y) then Raise (ValueError msg_shapes_match) else Ok tt)
  = Ok tt.
Proof. cbn. rewrite !Z.eqb_refl. reflexivity. Qed.

(** Channel-first closed form of [compute_output_shape]. *)
Lemma compute_output_shape_channels_first {K} (self : CorrelationCost K)
    (n c h w : Z) :
  data_format self = "channels_first" ->
  stride_1 self <> 0 -> stride_2 self <> 0 ->
  compute_output_shape self (ShapeList [[n; c; h; w]; [n; c; h; w]])
  = Ok [[n; output_c self; output_extent self h; output_extent self w]].
Proof.
  intros Hdf H1 H2. unfold compute_output_shape.
  change (negb (length [[n; c; h; w]; [n; c; h; w]] =? 2)%nat) with false.
  cbv iota. rewrite shapes_match_refl. cbn [mbind result_bind].
  change (shape_at [[n; c; h; w]; [n; c; h; w]] 0 0) with (Ok n).
  cbn [mbind result_bind].
  rewrite (floordiv_nonzero _ _ H2). cbn [mbind result_bind].
  rewrite floordiv_two. cbn [mbind result_bind].
  rewrite Hdf. cbn [String.eqb Ascii.eqb Bool.eqb].
  change (shape_at [[n; c; h; w]; [n; c; h; w]] 0 2) with (Ok h).
  change (shape_at [[n; c; h; w]; [n; c; h; w]] 0 3) with (Ok w).
  cbn [mbind result_bind].
  rewrite (floordiv_nonzero _ _ H1). reflexivity.
Qed.

(** Channel-last closed form of [compute_output_shape]. *)
Lemma compute_output_shape_channels_last {K} (self : CorrelationCost K)
    (n h w c : Z) :
  data_format self = "channels_last" ->
  stride_1 self <> 0 -> stride_2 self <> 0 ->
  compute_output_shape self (ShapeList [[n; h; w; c]; [n; h; w; c]])
  = Ok [[n; output_extent self h; output_extent self w; output_c self]].
Proof.
  intros Hdf H1 H2. unfold compute_output_shape.
  change (negb (length [[n; h; w; c]; [n; h; w; c]] =? 2)%nat) with false.
  cbv iota. rewrite shapes_match_refl. cbn [mbind result_bind].
  change (shape_at [[n; h; w; c]; [n; h; w; c]] 0 0) with (Ok n).
  cbn [mbind result_bind].
  rewrite (floordiv_nonzero _ _ H2). cbn [mbind result_bind].
  rewrite floordiv_two. cbn [mbind result_bind].
  rewrite Hdf. cbn [String.eqb Ascii.eqb Bool.eqb].
  change (shape_at [[n; h; w; c]; [n; h; w; c]] 0 1) with (Ok h).
  change (shape_at [[n; h; w; c]; [n; h; w; c]] 0 2) with (Ok w).
  cbn [mbind result_bind].
  rewrite (floordiv_nonzero _ _ H1). reflexivity.
Qed.

(** C1, as the design document words it, fails: with [pad - bd = 1] and
    [stride_1 = 2] the code adds [2 * 1 // 2 = 1] to each spatial extent,
    the documented formula adds [2 * (1 // 2) = 0]. *)
Lemma documented_extent_counterexample :
  let self := layer 1 0 2 1 1 "channels_first" in
  let s := [1; 3; 5; 5] in
  compute_output_shape self (ShapeList [s; s]) = Ok [[1; 1; 6; 6]]
  /\ [1; output_c self; documented_extent self 5; documented_extent self 5]
     = [1; 1; 5; 5]
  /\ compute_output_shape self (ShapeList [s; s])
     <> Ok [[1; output_c self; documented_extent self 5;
             documented_extent self 5]].
Proof. repeat split; try reflexivity. discriminate. Qed.

(** C1 (amended): for two identical 4-D shapes and non-zero strides,
    [compute_output_shape] returns the batch axis unchanged,
    [C' = (2r+1)^2] with [r = floor(max_displacement / stride_2)], and
    [H' = H + floor(2*(pad - bd) / stride_1)], [W'] alike, with
    [bd = max_displacement + floor((kernel_size-1)/2)]; the axes are in the
    order of the layout of the layer. *)
Theorem compute_output_shape_closed_form {K} (self : CorrelationCost K)
    (n c h w : Z) :
  stride_1 self <> 0 -> stride_2 self <> 0 ->
  (data_format self = "channels_first" ->
   compute_output_shape self (ShapeList [[n; c; h; w]; [n; c; h; w]])
   = Ok [[n; output_c self; output_extent self h; output_extent self w]])
  /\ (data_format self = "channels_last" ->
      compute_output_shape self (ShapeList [[n; h; w; c]; [n; h; w; c]])
      = Ok [[n; output_extent self h; output_extent self w; output_c self]]).
Proof.
  intros H1 H2. split; intros Hdf.
  - apply compute_output_shape_channels_first; assumption.
  - apply compute_output_shape_channels_last; assumption.
Qed.

Lemma compute_output_shape_closed_form_witness :
  compute_output_shape (layer 3 4 2 2 6 "channels_first")
    (ShapeList [[2; 8; 10; 12]; [2; 8; 10; 12]]) = Ok [[2; 25; 11; 13]]
  /\ compute_output_shape (layer 3 4 2 2 6 "channels_last")
       (ShapeList [[2; 10; 12; 8]; [2; 10; 12; 8]]) = Ok [[2; 11; 13; 25]].
Proof.
  split.
  - exact (proj1 (compute_output_shape_closed_form
                    (layer 3 4 2 2 6 "channels_first") 2 8 10 12
                    ltac:(discriminate) ltac:(discriminate)) eq_refl).
  - exact (proj2 (compute_output_shape_closed_form
                    (layer 3 4 2 2 6 "channels_last") 2 8 10 12
                    ltac:(discriminate) ltac:(discriminate)) eq_refl).
Defined.

(** The two formulas agree when [stride_1] divides [pad - bd], in
    particular for [stride_1 = 1] and at the boundary [pad = bd]. *)
Lemma output_extent_documented {K} (self : CorrelationCost K) (h : Z) :
  stride_1 self <> 0 ->
  (pad self - bd self) mod stride_1 self = 0 ->
  output_extent self h = documented_extent self h.
Proof.
  intros Hs Hm. unfold output_extent, documented_extent.
  apply Z.div_exact in Hm; [| assumption].
  set (q := (pad self - bd self) / stride_1 self) in *.
  rewrite Hm. f_equal.
  replace (2 * (stride_1 self * q)) with ((2 * q) * stride_1 self) by lia.
  apply Z.div_mul. assumption.
Qed.

(** C3, as stated, fails: an even kernel size, non-positive output extents
    and a negative stride all yield a shape. *)
Lemma invalid_geometry_counterexample :
  let s := [1; 3; 5; 5] in
  (invalid_geometry (layer 2 0 1 1 0 "channels_first") 5 5 = true
   /\ compute_output_shape (layer 2 0 1 1 0 "channels_first")
        (ShapeList [s; s]) = Ok [[1; 1; 5; 5]])
  /\ (invalid_geometry (layer 1 0 1 1 (-5) "channels_first") 5 5 = true
      /\ compute_output_shape (layer 1 0 1 1 (-5) "channels_first")
           (ShapeList [s; s]) = Ok [[1; 1; -5; -5]])
  /\ (invalid_geometry (layer 1 0 (-1) 1 0 "channels_first") 5 5 = true
      /\ compute_output_shape (layer 1 0 (-1) 1 0 "channels_first")
           (ShapeList [s; s]) = Ok [[1; 1; 5; 5]]).
Proof. repeat split; reflexivity. Qed.

(** C3 (amended): shape inference validates no geometry.  On two identical
    4-D shapes and a recognised layout it returns a shape whenever both
    strides are non-zero, whatever the kernel size, the sign of the strides
    and the sign of the extents it computes; it fails only for a stride
    equal to 0, with the [ZeroDivisionError] of the floor division. *)
Theorem compute_output_shape_no_geometry_check {K} (self : CorrelationCost K)
    (s : Shape) :
  length s = 4%nat -> recognised (data_format self) ->
  (stride_1 self <> 0 /\ stride_2 self <> 0 ->
   exists out, compute_output_shape self (ShapeList [s; s]) = Ok [out])
  /\ (stride_1 self = 0 \/ stride_2 self = 0 ->
      compute_output_shape self (ShapeList [s; s]) = Raise ZeroDivisionError).
Proof.
  intros Hlen Hdf.
  destruct s as [|a [|b [|c [|d [|? ?]]]]]; try discriminate Hlen.
  split.
  - intros [H1 H2]. destruct Hdf as [Hdf | Hdf].
    + eexists. apply compute_output_shape_channels_last; assumption.
    + eexists. apply compute_output_shape_channels_first; assumption.
  - intros Hz. unfold compute_output_shape.
    change (negb (length [[a; b; c; d]; [a; b; c; d]] =? 2)%nat) with false.
    cbv iota. rewrite shapes_match_refl. cbn [mbind result_bind].
    change (shape_at [[a; b; c; d]; [a; b; c; d]] 0 0) with (Ok a).
    cbn [mbind result_bind].
    destruct (Z.eq_dec (stride_2 self) 0) as [E2 | N2].
    + rewrite E2. reflexivity.
    + rewrite (floordiv_nonzero _ _ N2). cbn [mbind result_bind].
      rewrite floordiv_two. cbn [mbind result_bind].
      destruct Hz as [E1 | E2]; [| contradiction].
      rewrite E1.
      destruct Hdf as [Hdf | Hdf]; rewrite Hdf; reflexivity.
Qed.

Lemma compute_output_shape_no_geometry_check_witness :
  (exists out,
     compute_output_shape (layer 2 0 (-1) 1 (-5) "channels_last")
       (ShapeList [[1; 5; 5; 3]; [1; 5; 5; 3]]) = Ok [out])
  /\ compute_output_shape (layer 3 1 0 1 1 "channels_last")
       (ShapeList [[1; 5; 5; 3]; [1; 5; 5; 3]]) = Raise ZeroDivisionError.
Proof.
  split.
  - apply (proj1 (compute_output_shape_no_geometry_check
                    (layer 2 0 (-1) 1 (-5) "channels_last") [1; 5; 5; 3]
                    eq_refl (or_introl eq_refl))).
    split; discriminate.
  - apply (proj2 (compute_output_shape_no_geometry_check
                    (layer 3 1 0 1 1 "channels_last") [1; 5; 5; 3]
                    eq_refl (or_introl eq_refl))).
    left. reflexivity.
Defined.

(** ** The two layouts of shape inference *)

Lemma length_four {A} (s : list A) :
  length s = 4%nat -> exists a b c d, s = [a; b; c; d].
Proof.
  destruct s as [|a [|b [|c [|d [|? ?]]]]]; try discriminate.
  intros _. eauto.
Qed.

(** C10: on 4-tuples, [compute_output_shape] under [channels_last] is the
    permutation [0,2,3,1] of its [channels_first] result on the shapes
    permuted by [0,3,1,2], errors included. *)
Theorem compute_output_shape_layouts_agree {K} (self : CorrelationCost K)
    (l : list Shape) :
  Forall (fun s => length s = 4%nat) l ->
  compute_output_shape (with_data_format self "channels_last") (ShapeList l)
  = map (permute 0 [0; 2; 3; 1]%nat)
      <$> compute_output_shape (with_data_format self "channels_first")
            (ShapeList (map (permute 0 [0; 3; 1; 2]%nat) l)).
Proof.
  intros Hl.
  destruct l as [|sa [|sb [|sc l]]]; try reflexivity.
  apply Forall_cons in Hl as [Ha Hl]. apply Forall_cons in Hl as [Hb _].
  apply length_four in Ha as (a0 & a1 & a2 & a3 & ->).
  apply length_four in Hb as (b0 & b1 & b2 & b3 & ->).
  unfold compute_output_shape, with_data_format, floordiv.
  cbn -[Z.mul Z.div Z.pow Z.add Z.sub Z.eqb].
  destruct (Z.eqb_spec a0 b0), (Z.eqb_spec a1 b1), (Z.eqb_spec a2 b2),
    (Z.eqb_spec a3 b3); cbn -[Z.mul Z.div Z.pow Z.add Z.sub Z.eqb];
    try reflexivity.
  destruct (Z.eqb_spec (stride_2 self) 0);
    cbn -[Z.mul Z.div Z.pow Z.add Z.sub Z.eqb]; try reflexivity.
  destruct (Z.eqb_spec (stride_1 self) 0);
    cbn -[Z.mul Z.div Z.pow Z.add Z.sub Z.eqb]; reflexivity.
Qed.

Lemma compute_output_shape_layouts_agree_witness :
  compute_output_shape
    (with_data_format (layer 3 4 2 2 6 "channels_last") "channels_last")
    (ShapeList [[2; 10; 12; 8]; [2; 10; 12; 8]])
  = map (permute 0 [0; 2; 3; 1]%nat)
      <$> compute_output_shape
            (with_data_format (layer 3 4 2 2 6 "channels_last")
               "channels_first")
            (ShapeList (map (permute 0 [0; 3; 1; 2]%nat)
                          [[2; 10; 12; 8]; [2; 10; 12; 8]])).
Proof.
  apply (compute_output_shape_layouts_agree (layer 3 4 2 2 6 "channels_last")
           [[2; 10; 12; 8]; [2; 10; 12; 8]]).
  repeat constructor.
Defined.

(** ** The forward wrapper *)

Section Wrapper.

Context {elt : Type}.
Variable fwd : Tensor elt -> Tensor elt -> Attrs -> result (Tensor elt).

(** The run of the forward wrapper under each recognised layout. *)
Lemma correlation_cost_channels_last a b ks md s1 s2 pd name w :
  run (_correlation_cost fwd a b ks md s1 s2 pd "channels_last" name) w
  = (fwd a b (mkAttrs ks md s1 s2 pd "NHWC")
       ≫= (fun ret => transpose ret [0; 2; 3; 1]%nat),
     w, [CallCorrelationCost a b (mkAttrs ks md s1 s2 pd "NHWC")]).
Proof.
  unfold run, _correlation_cost, with_name_scope, call_correlation_cost, lift.
  unfold mbind, M_bind, mret, M_ret. cbn.
  destruct (fwd a b (mkAttrs ks md s1 s2 pd "NHWC")) as [ret | e];
    destruct w; reflexivity.
Qed.

Lemma correlation_cost_channels_first a b ks md s1 s2 pd name w :
  run (_correlation_cost fwd a b ks md s1 s2 pd "channels_first" name) w
  = (fwd a b (mkAttrs ks md s1 s2 pd "NCHW"),
     w, [CallCorrelationCost a b (mkAttrs ks md s1 s2 pd "NCHW")]).
Proof.
  unfold run, _correlation_cost, with_name_scope, call_correlation_cost, lift.
  unfold mbind, M_bind, mret, M_ret. cbn.
  destruct (fwd a b (mkAttrs ks md s1 s2 pd "NCHW")) as [ret | e];
    destruct w; reflexivity.
Qed.

Lemma correlation_cost_unrecognised a b ks md s1 s2 pd df name w :
  df <> "channels_last" -> df <> "channels_first" ->
  run (_correlation_cost fwd a b ks md s1 s2 pd df name) w
  = (Raise (ValueError msg_data_format), w, []).
Proof.
  intros Hl Hf. apply String.eqb_neq in Hl, Hf.
  unfold run, _correlation_cost, with_name_scope, raise.
  unfold mbind, M_bind, mret, M_ret. rewrite Hl, Hf.
  destruct w; reflexivity.
Qed.

End Wrapper.

(** The transposition of a rank-4 tensor by [0,2,3,1] moves the channel axis
    last and alters no element. *)
Lemma transpose_channels_last {elt} (n c h w : Z) (f : list Z -> elt) :
  exists t,
    transpose (mkTensor [n; c; h; w] f) [0; 2; 3; 1]%nat = Ok t
    /\ shape t = [n; h; w; c]
    /\ forall i j k l, at_ t [i; j; k; l] = f [i; l; j; k].
Proof. eexists. repeat split. Qed.

(** C5: a layout tag other than [channels_last] and [channels_first] makes
    the constructor raise its [ValueError] whatever the base class does, and
    makes the forward wrapper raise its [ValueError] with no invocation of
    the op library and the process state as it was. *)
Theorem unrecognised_data_format_rejected (df : string) :
  df <> "channels_last" -> df <> "channels_first" ->
  (forall K (Layer_init : gmap string value -> result K) ks md s1 s2 pd kwargs,
     __init__ Layer_init ks md s1 s2 pd df kwargs
     = Raise (ValueError (msg_data_format_got df)))
  /\ (forall elt (fwd : Tensor elt -> Tensor elt -> Attrs -> result (Tensor elt))
        a b ks md s1 s2 pd name w,
        run (_correlation_cost fwd a b ks md s1 s2 pd df name) w
        = (Raise (ValueError msg_data_format), w, [])).
Proof.
  intros Hl Hf. split.
  - intros. unfold __init__.
    apply String.eqb_neq in Hl, Hf. rewrite Hl, Hf. reflexivity.
  - intros. apply correlation_cost_unrecognised; assumption.
Qed.

Lemma unrecognised_data_format_rejected_witness :
  __init__ unit_init 3 4 1 2 4 "NHWC" ∅
  = Raise (ValueError (msg_data_format_got "NHWC"))
  /\ run (_correlation_cost (SpecKernel.forward Z 0 Z.add Z.mul)
            (ramp [1; 2; 3; 4] 0) (ramp [1; 2; 3; 4] 5) 3 4 1 2 4 "NHWC" None)
         (mkWorld ["model"] ["Addons>CorrelationCost"])
     = (Raise (ValueError msg_data_format),
        mkWorld ["model"] ["Addons>CorrelationCost"], []).
Proof.
  split.
  - apply (proj1 (unrecognised_data_format_rejected "NHWC"
                    ltac:(discriminate) ltac:(discriminate))).
  - apply (proj2 (unrecognised_data_format_rejected "NHWC"
                    ltac:(discriminate) ltac:(discriminate))).
Defined.

(** C6: under [channels_last] the forward wrapper invokes the kernel once,
    on the inputs as they are, and returns the permutation [0,2,3,1] of the
    tensor the kernel produced: a kernel output of shape [N, C', H', W']
    comes back with shape [N, H', W', C'] and the same elements.  Under
    [channels_first] the kernel is invoked once and its output is returned
    as it is.  Nothing else is done in either layout.  The kernel of
    [SpecKernel] itself runs one computation, [forward_core], on
    channel-first tensors: under the tag NHWC on the inputs permuted by
    [0,3,1,2], under NCHW on the inputs as they are. *)
Theorem layout_adaptation_is_output_permutation {elt}
    (fwd : Tensor elt -> Tensor elt -> Attrs -> result (Tensor elt))
    (a b : Tensor elt) (ks md s1 s2 pd : Z) (name : option string)
    (w : World) :
  run (_correlation_cost fwd a b ks md s1 s2 pd "channels_last" name) w
  = (fwd a b (mkAttrs ks md s1 s2 pd "NHWC")
       ≫= (fun ret => transpose ret [0; 2; 3; 1]%nat),
     w, [CallCorrelationCost a b (mkAttrs ks md s1 s2 pd "NHWC")])
  /\ run (_correlation_cost fwd a b ks md s1 s2 pd "channels_first" name) w
     = (fwd a b (mkAttrs ks md s1 s2 pd "NCHW"),
        w, [CallCorrelationCost a b (mkAttrs ks md s1 s2 pd "NCHW")])
  /\ (forall (n c h' w' : Z) (f : list Z -> elt),
        exists t,
          transpose (mkTensor [n; c; h'; w'] f) [0; 2; 3; 1]%nat = Ok t
          /\ shape t = [n; h'; w'; c]
          /\ forall i j k l, at_ t [i; j; k; l] = f [i; l; j; k])
  /\ (forall (zero : elt) (add mul : elt -> elt -> elt),
        let core := SpecKernel.forward_core elt zero add mul in
        SpecKernel.forward elt zero add mul a b
          (mkAttrs ks md s1 s2 pd "NHWC")
        = (a' ← transpose a [0; 3; 1; 2]%nat;
           b' ← transpose b [0; 3; 1; 2]%nat;
           out ← SpecKernel.shape_inference (mkAttrs ks md s1 s2 pd "NHWC")
                   (shape a') (shape b');
           Ok (core (mkAttrs ks md s1 s2 pd "NHWC") a' b' out))
        /\ SpecKernel.forward elt zero add mul a b
             (mkAttrs ks md s1 s2 pd "NCHW")
           = (out ← SpecKernel.shape_inference
                      (mkAttrs ks md s1 s2 pd "NCHW") (shape a) (shape b);
              Ok (core (mkAttrs ks md s1 s2 pd "NCHW") a b out))).
Proof.
  split; [apply correlation_cost_channels_last |].
  split; [apply correlation_cost_channels_first |].
  split; [intros; apply transpose_channels_last |].
  intros zero add mul core. split; reflexivity.
Qed.

(** ** Arity and shape checks *)

(** [compute_output_shape] rejects a list that has not two shapes. *)
Lemma compute_output_shape_arity {K} (self : CorrelationCost K)
    (l : list Shape) :
  length l <> 2%nat ->
  compute_output_shape self (ShapeList l) = Raise (ValueError msg_two_shapes).
Proof.
  intros Hl. unfold compute_output_shape.
  destruct (Nat.eqb_spec (length l) 2); [contradiction | reflexivity].
Qed.

(** [compute_output_shape] rejects two 4-D shapes that differ in an axis. *)
Lemma compute_output_shape_mismatch {K} (self : CorrelationCost K)
    (sa sb : Shape) :
  length sa = 4%nat -> length sb = 4%nat -> sa <> sb ->
  compute_output_shape self (ShapeList [sa; sb])
  = Raise (ValueError msg_shapes_match).
Proof.
  intros Ha Hb Hne.
  apply length_four in Ha as (a0 & a1 & a2 & a3 & ->).
  apply length_four in Hb as (b0 & b1 & b2 & b3 & ->).
  unfold compute_output_shape. cbn -[Z.eqb floordiv].
  destruct (Z.eqb_spec a0 b0); [| reflexivity].
  destruct (Z.eqb_spec a1 b1); [| reflexivity].
  destruct (Z.eqb_spec a2 b2); [| reflexivity].
  destruct (Z.eqb_spec a3 b3); [| reflexivity].
  congruence.
Qed.

(** [build] accepts a list of any length; what it does with it is up to the
    base class. *)
Lemma build_arity_unchecked {K} (Layer_build : K -> shape_arg -> result K)
    (self : CorrelationCost K) (l : list Shape) :
  build Layer_build self (ShapeList l)
  = with_base self <$> Layer_build (base self) (ShapeList l).
Proof. reflexivity. Qed.

(** C4 fails on [call]: only the type of [inputs] is checked.  A list of
    three tensors runs exactly as the list of its first two, the third
    being ignored, and a list of one tensor ends in the [IndexError] of
    [inputs[1]], not in the [ValueError] of the check. *)
Theorem call_arity_unchecked {elt K}
    (fwd : Tensor elt -> Tensor elt -> Attrs -> result (Tensor elt))
    (self : CorrelationCost K) (a b c : Tensor elt) (w : World) :
  run (call fwd self (TensorList [a; b; c])) w
  = run (_correlation_cost fwd a b (kernel_size self) (max_displacement self)
           (stride_1 self) (stride_2 self) (pad self) (data_format self) None)
        w
  /\ run (call fwd self (TensorList [a; b; c])) w
     = run (call fwd self (TensorList [a; b])) w
  /\ run (call fwd self (TensorList [a])) w = (Raise IndexError, w, [])
  /\ run (call fwd self (SingleTensor a)) w
     = (Raise (ValueError msg_two_tensors), w, []).
Proof.
  assert (H3 : run (call fwd self (TensorList [a; b; c])) w
    = run (_correlation_cost fwd a b (kernel_size self)
             (max_displacement self) (stride_1 self) (stride_2 self)
             (pad self) (data_format self) None) w).
  { unfold run, call, lift, convert_to_tensor, mbind, M_bind. cbn.
    destruct (_correlation_cost _ _ _ _ _ _ _ _ _ _ w) as [[r w'] tr].
    reflexivity. }
  assert (H2 : run (call fwd self (TensorList [a; b])) w
    = run (_correlation_cost fwd a b (kernel_size self)
             (max_displacement self) (stride_1 self) (stride_2 self)
             (pad self) (data_format self) None) w).
  { unfold run, call, lift, convert_to_tensor, mbind, M_bind. cbn.
    destruct (_correlation_cost _ _ _ _ _ _ _ _ _ _ w) as [[r w'] tr].
    reflexivity. }
  split; [exact H3 |]. split; [congruence |]. split; reflexivity.
Qed.

(** A list of three tensors reaches the kernel: with the kernels of
    [SpecKernel] the call returns a cost volume of the two first tensors. *)
Lemma call_three_inputs_example :
  let self := layer 1 0 1 1 0 "channels_first" in
  let a := ramp [1; 1; 2; 2] 1 in
  let b := ramp [1; 1; 2; 2] 2 in
  let c := ramp [7; 7; 7; 7] 3 in
  let o := run (call (SpecKernel.forward Z 0 Z.add Z.mul) self
                  (TensorList [a; b; c])) (mkWorld [] []) in
  (shape <$> outcome o) = Ok [1; 1; 2; 2]
  /\ ((fun t => at_ t [0; 0; 1; 1]) <$> outcome o) = Ok (12 * 13)
  /\ trace o = [CallCorrelationCost a b (forward_attrs self "NCHW")].
Proof. repeat split. Qed.

(** ** Configuration *)

Lemma dict_of_items_app (l1 l2 : list (string * value)) :
  dict_of_items (l1 ++ l2)
  = fold_left (fun d kv => <[kv.1 := kv.2]> d) l2 (dict_of_items l1).
Proof. unfold dict_of_items. apply fold_left_app. Qed.

(** The six operator entries of a configuration are the attributes, whatever
    the base configuration holds under the same keys. *)
Lemma get_config_entries {K} (Layer_get_config : K -> list (string * value))
    (self : CorrelationCost K) :
  let config := (get_config Layer_get_config self).1 in
  config !! "kernel_size" = Some (VInt (kernel_size self))
  /\ config !! "max_displacement" = Some (VInt (max_displacement self))
  /\ config !! "stride_1" = Some (VInt (stride_1 self))
  /\ config !! "stride_2" = Some (VInt (stride_2 self))
  /\ config !! "pad" = Some (VInt (pad self))
  /\ config !! "data_format" = Some (VStr (data_format self)).
Proof.
  unfold get_config. cbn [fst]. rewrite dict_of_items_app. cbn [fold_left fst snd].
  repeat split;
    repeat (rewrite lookup_insert_ne by discriminate);
    apply lookup_insert_eq.
Qed.

(** A layer the constructor returned holds the arguments and a recognised
    layout tag. *)
Lemma init_inv {K} (Layer_init : gmap string value -> result K)
    ks md s1 s2 pd df kwargs (self : CorrelationCost K) :
  __init__ Layer_init ks md s1 s2 pd df kwargs = Ok self ->
  recognised df /\ attributes self = (ks, md, s1, s2, pd, df).
Proof.
  unfold __init__, recognised.
  destruct (String.eqb_spec df "channels_last") as [El | Hl];
    destruct (String.eqb_spec df "channels_first") as [Ef | Hf];
    cbn; try discriminate;
    destruct (Layer_init kwargs); cbn; try discriminate;
    intros [= <-]; (split; [| reflexivity]); auto.
Qed.

(** C9: for a layer the constructor returned, [get_config] leaves the layer
    as it is, and the constructor applied to the six operator entries of the
    configuration builds, whenever the base class accepts its own
    arguments, a layer with the same six attributes. *)
Theorem get_config_round_trip {K}
    (Layer_init : gmap string value -> result K)
    (Layer_get_config : K -> list (string * value))
    (ks md s1 s2 pd : Z) (df : string) (kwargs kwargs' : gmap string value)
    (self : CorrelationCost K) :
  __init__ Layer_init ks md s1 s2 pd df kwargs = Ok self ->
  (get_config Layer_get_config self).2 = self
  /\ from_config Layer_init (get_config Layer_get_config self).1 kwargs'
     = with_base self <$> Layer_init kwargs'
  /\ (forall self',
        from_config Layer_init (get_config Layer_get_config self).1 kwargs'
        = Ok self' ->
        attributes self' = attributes self).
Proof.
  intros Hinit. apply init_inv in Hinit as [Hrec Hattr].
  assert (Hfrom :
    from_config Layer_init (get_config Layer_get_config self).1 kwargs'
    = with_base self <$> Layer_init kwargs').
  { destruct (get_config_entries Layer_get_config self)
      as (E1 & E2 & E3 & E4 & E5 & E6).
    unfold from_config. cbv zeta in E1, E2, E3, E4, E5, E6.
    rewrite E1, E2, E3, E4, E5, E6.
    clear E1 E2 E3 E4 E5 E6. destruct self. unfold attributes in Hattr.
    cbn in Hattr. injection Hattr as ? ? ? ? ? ?. subst.
    unfold __init__, with_base.
    destruct Hrec as [-> | ->]; cbn; destruct (Layer_init kwargs');
      reflexivity. }
  split; [reflexivity |]. split; [exact Hfrom |].
  intros self'. rewrite Hfrom.
  destruct (Layer_init kwargs'); cbn; [| discriminate].
  intros [= <-]. reflexivity.
Qed.

Lemma get_config_round_trip_witness :
  let self := layer 3 4 1 2 4 "channels_last" in
  (get_config unit_get_config self).2 = self
  /\ from_config unit_init (get_config unit_get_config self).1 ∅ = Ok self.
Proof.
  intros self.
  destruct (get_config_round_trip unit_init unit_get_config 3 4 1 2 4
              "channels_last" ∅ ∅ self eq_refl) as (H1 & H2 & _).
  split; [exact H1 | exact H2].
Defined.

(** ** The gradient function *)

(** Whatever the kernel, the gradient function hands it the two inputs and
    the attributes of the forward op with the upstream gradient, and returns
    its first two outputs, in the order of the inputs. *)
Lemma correlation_cost_grad_run {elt}
    (bwd : Tensor elt -> Tensor elt -> Tensor elt -> Attrs ->
           result (list (Tensor elt)))
    (op : Operation elt) (a b g ga gb : Tensor elt)
    (more rest : list (Tensor elt)) (w : World) :
  op_inputs op = a :: b :: more ->
  bwd a b g (op_attrs op) = Ok (ga :: gb :: rest) ->
  run (_correlation_cost_grad bwd op g) w
  = (Ok [ga; gb], w, [CallCorrelationCostGrad a b g (op_attrs op)]).
Proof.
  intros Hin Hk. destruct op as [attrs inputs]. cbn in Hin, Hk. subst inputs.
  destruct attrs.
  unfold run, _correlation_cost_grad, call_correlation_cost_grad, lift,
    convert_to_tensor, mbind, M_bind, mret, M_ret.
  cbn. rewrite Hk. reflexivity.
Qed.

Module SpecKernelFacts.
Import SpecKernel.

Section Kernel.

Context {elt : Type}.
Variable zero : elt.
Variables add mul : elt -> elt -> elt.

(** Accumulation is a scatter-add: the element at an index after the loop
    is its value before, followed by every contribution that landed on the
    index, added in the order of the enumeration. *)
Lemma scatter_add_lookup (l : list (list Z * elt)) :
  forall (grad : gmap (list Z) elt) (e : list Z),
    default zero (scatter_add elt zero add grad l !! e)
    = fold_left add (map snd (filter (fun k => k.1 = e) l))
        (default zero (grad !! e)).
Proof.
  induction l as [| k l IH]; intros grad e.
  - reflexivity.
  - unfold scatter_add in *. cbn [fold_left]. rewrite IH.
    rewrite filter_cons. unfold accumulate.
    destruct (decide (k.1 = e)) as [<- | Hne].
    + rewrite lookup_insert_eq. reflexivity.
    + rewrite lookup_insert_ne by assumption. reflexivity.
Qed.

Lemma scatter_add_sum (l : list (list Z * elt)) (e : list Z) :
  default zero (scatter_add elt zero add ∅ l !! e)
  = sum_list elt zero add (map snd (filter (fun k => k.1 = e) l)).
Proof. rewrite scatter_add_lookup, lookup_empty. reflexivity. Qed.

(** The adapter on a rank-4 tensor. *)
Lemma to_canonical_rank4 (tag : string) (t : Tensor elt) :
  length (shape t) = 4%nat -> tag = "NCHW" \/ tag = "NHWC" ->
  exists t',
    to_canonical elt tag t = Ok t'
    /\ shape t' = canonical_shape tag (shape t)
    /\ forall n c y x, at_ t' [n; c; y; x] = at_ t (layout_index tag n c y x).
Proof.
  intros Hlen [-> | ->]; unfold to_canonical, transpose; cbn.
  - eexists. repeat split.
  - rewrite Hlen. cbn. eexists. repeat split.
Qed.

(** The adapter back: a canonical tensor whose shape is the canonical shape
    of [s] returns to shape [s]. *)
Lemma from_canonical_rank4 (tag : string) (s : Shape) (t : Tensor elt) :
  length s = 4%nat -> tag = "NCHW" \/ tag = "NHWC" ->
  shape t = canonical_shape tag s ->
  exists t',
    from_canonical elt tag t = Ok t'
    /\ shape t' = s
    /\ forall n c y x, at_ t' (layout_index tag n c y x) = at_ t [n; c; y; x].
Proof.
  intros Hlen Htag Hs.
  apply length_four in Hlen as (s0 & s1 & s2 & s3 & ->).
  destruct Htag as [-> | ->]; unfold from_canonical, transpose; cbn in *.
  - eexists. repeat split. assumption.
  - rewrite Hs. cbn. eexists. repeat split.
Qed.

(** On a valid invocation the gradient kernel returns the two gradients of
    the canonical computation, each brought back to the layout of its
    input. *)
Lemma backward_valid (p : Attrs) (a b g : Tensor elt) :
  valid_invocation p a b g ->
  exists a' b' ga gb,
    to_canonical elt (attr_data_format p) a = Ok a'
    /\ to_canonical elt (attr_data_format p) b = Ok b'
    /\ backward elt zero add mul a b g p = Ok [ga; gb]
    /\ shape ga = shape a /\ shape gb = shape b
    /\ forall n c y x,
         at_ ga (layout_index (attr_data_format p) n c y x)
         = at_ (backward_core elt zero add mul p a' b' g).1 [n; c; y; x]
         /\ at_ gb (layout_index (attr_data_format p) n c y x)
            = at_ (backward_core elt zero add mul p a' b' g).2 [n; c; y; x].
Proof.
  intros (Ha & Hb & Htag & Hinf).
  destruct (to_canonical_rank4 _ a Ha Htag) as (a' & Ea & Sa & _).
  destruct (to_canonical_rank4 _ b Hb Htag) as (b' & Eb & Sb & _).
  destruct (from_canonical_rank4 (attr_data_format p) (shape a)
              (backward_core elt zero add mul p a' b' g).1 Ha Htag Sa)
    as (ga & Ega & Sga & Aga).
  destruct (from_canonical_rank4 (attr_data_format p) (shape b)
              (backward_core elt zero add mul p a' b' g).2 Hb Htag Sb)
    as (gb & Egb & Sgb & Agb).
  exists a', b', ga, gb. repeat split; try assumption.
  - unfold backward. rewrite Ea, Eb. cbn [mbind result_bind].
    rewrite Sa, Sb, Hinf. cbn [mbind result_bind].
    rewrite bool_decide_eq_true_2 by reflexivity. cbn [negb].
    destruct (backward_core elt zero add mul p a' b' g) as [ca cb].
    cbn [fst snd] in Ega, Egb. rewrite Ega, Egb. reflexivity.
  - apply Aga.
  - apply Agb.
Qed.

End Kernel.

End SpecKernelFacts.

(** ** The gradients as derivatives

    Over a commutative semiring the tensors that BackwardCorrelation
    accumulates are the derivatives of the scalar [loss]: adding [d] to one
    element of an input changes the loss by [d] times the gradient at that
    element. *)

Section Derivative.
Import SpecKernel.

Context {elt : Type}.
Variable zero : elt.
Variables add mul : elt -> elt -> elt.
Hypothesis SR : semiring zero add mul.

Local Abbreviation sum := (sum_list elt zero add).
Local Infix "+'" := add (at level 50, left associativity).
Local Infix "*'" := mul (at level 40, left associativity).

Lemma semi_add_0_r x : x +' zero = x.
Proof. rewrite (sr_add_comm _ _ _ SR). apply SR. Qed.

Lemma semi_distr_r x y z : (y +' z) *' x = y *' x +' z *' x.
Proof.
  rewrite (sr_mul_comm _ _ _ SR), (sr_distr_l _ _ _ SR).
  rewrite (sr_mul_comm _ _ _ SR x y), (sr_mul_comm _ _ _ SR x z). reflexivity.
Qed.

Lemma semi_add_shuffle x y u v : (x +' y) +' (u +' v) = (x +' u) +' (y +' v).
Proof.
  rewrite <- !(sr_add_assoc _ _ _ SR). f_equal.
  rewrite !(sr_add_assoc _ _ _ SR). f_equal. apply SR.
Qed.

Lemma semi_fold_add (l : list elt) (acc : elt) :
  fold_left add l acc = acc +' sum l.
Proof.
  unfold sum_list. revert acc. induction l as [|x l IH]; intros acc; cbn.
  - symmetry. apply semi_add_0_r.
  - rewrite IH, (IH (zero +' x)), (sr_add_0_l _ _ _ SR).
    symmetry. apply SR.
Qed.

Lemma semi_sum_cons x (l : list elt) : sum (x :: l) = x +' sum l.
Proof.
  unfold sum_list at 1. cbn. rewrite semi_fold_add, (sr_add_0_l _ _ _ SR).
  reflexivity.
Qed.

Lemma semi_sum_app (l1 l2 : list elt) : sum (l1 ++ l2) = sum l1 +' sum l2.
Proof.
  induction l1 as [|x l1 IH].
  - cbn [app]. symmetry. apply SR.
  - rewrite <- app_comm_cons, !semi_sum_cons, IH. apply SR.
Qed.

Lemma semi_sum_filter_bind {X} (P : list Z * elt -> Prop)
    `{forall k, Decision (P k)} (F : X -> list (list Z * elt)) (l : list X) :
  sum (map snd (filter P (l ≫= F)))
  = sum (map (fun x => sum (map snd (filter P (F x)))) l).
Proof.
  induction l as [|x l IH]; [reflexivity |].
  rewrite bind_cons, filter_app, map_app, semi_sum_app.
  cbn [map]. rewrite semi_sum_cons, IH. reflexivity.
Qed.

Lemma semi_sum_perturbed {X} (f f' h : X -> elt) (d : elt) (l : list X) :
  Forall (fun x => f' x = f x +' d *' h x) l ->
  sum (map f' l) = sum (map f l) +' d *' sum (map h l).
Proof.
  induction 1 as [|x l Hx _ IH]; cbn [map].
  - unfold sum_list. cbn. rewrite (sr_mul_0_r _ _ _ SR). symmetry. apply semi_add_0_r.
  - rewrite !semi_sum_cons, IH, Hx, (sr_distr_l _ _ _ SR). apply semi_add_shuffle.
Qed.

Lemma semi_sum_scale {X} (h : X -> elt) (k : elt) (l : list X) :
  sum (map (fun x => k *' h x) l) = k *' sum (map h l).
Proof.
  induction l as [|x l IH]; cbn [map].
  - unfold sum_list. cbn. symmetry. apply SR.
  - rewrite !semi_sum_cons, IH. symmetry. apply SR.
Qed.

Lemma zrange_bounds (lo hi : Z) : Forall (fun x => lo <= x < hi) (zrange lo hi).
Proof.
  unfold zrange. apply Forall_fmap, Forall_seq. intros j Hj. cbn. lia.
Qed.

Lemma tuples_bounds (p : Attrs) (n h' w' : Z) :
  Forall (fun t => - radius p <= t_dy t <= radius p
                   /\ - radius p <= t_dx t <= radius p) (tuples p n h' w').
Proof.
  unfold tuples.
  apply Forall_bind, Forall_forall; intros b _. cbn.
  apply Forall_bind, Forall_forall; intros i _. cbn.
  apply Forall_bind, Forall_forall; intros j _. cbn.
  apply Forall_bind.
  eapply Forall_impl; [apply zrange_bounds |]. intros dy Hdy. cbn.
  apply Forall_bind.
  eapply Forall_impl; [apply zrange_bounds |]. intros dx Hdx. cbn.
  cbn beta in Hdy, Hdx. constructor; [cbn; lia | constructor].
Qed.

(** the cost volume at the output index of a tuple is its correlation *)
Lemma forward_core_at (p : Attrs) (a b : Tensor elt) (out : Shape)
    (t : tuple) (n0 c h w : Z) :
  shape a = [n0; c; h; w] ->
  - radius p <= t_dy t <= radius p -> - radius p <= t_dx t <= radius p ->
  at_ (forward_core elt zero add mul p a b out) (output_index p t)
  = correlation elt zero add mul p a b c t.
Proof.
  intros Ha Hdy Hdx. destruct t as [n i j dy dx]. cbn in Hdy, Hdx.
  unfold forward_core, output_index, channel.
  cbn [at_ t_n t_i t_j t_dy t_dx]. rewrite Ha.
  set (r := radius p) in *.
  replace ((dy + r) * (2 * r + 1) + (dx + r)) with
    ((dx + r) + (dy + r) * (2 * r + 1)) by lia.
  rewrite Z.div_add by lia. rewrite Z.mod_add by lia.
  rewrite Z.div_small by lia. rewrite Z.mod_small by lia.
  replace (0 + (dy + r) - r) with dy by lia.
  replace (dx + r - r) with dx by lia. reflexivity.
Qed.

Lemma padded_bump (p : Attrs) (a : Tensor elt) (e : list Z) (d : elt)
    (n0 c h w n ch u v : Z) :
  shape a = [n0; c; h; w] ->
  padded elt zero p (bump add a e d) n ch u v
  = if inside p h w u v
       && bool_decide ([n; ch; u - attr_pad p; v - attr_pad p] = e)
    then padded elt zero p a n ch u v +' d
    else padded elt zero p a n ch u v.
Proof.
  intros Ha. unfold padded, bump. cbn. rewrite Ha.
  destruct (inside p h w u v); cbn; [| reflexivity].
  destruct (bool_decide _); reflexivity.
Qed.

Lemma semi_scale_perturbed (gv d x y : elt) :
  gv *' (x +' d *' y) = gv *' x +' d *' (gv *' y).
Proof.
  rewrite (sr_distr_l _ _ _ SR). f_equal.
  rewrite !(sr_mul_assoc _ _ _ SR), (sr_mul_comm _ _ _ SR gv d). reflexivity.
Qed.

(** what one tuple adds to the gradient of A at [e] *)
Lemma contributions_a_at (p : Attrs) (a b g : Tensor elt) (e : list Z)
    (t : tuple) (n0 c h w : Z) :
  shape a = [n0; c; h; w] ->
  sum (map snd (filter (fun k => k.1 = e)
                  (contributions_a elt zero mul p a b g t)))
  = at_ g (output_index p t)
    *' sum (map (fun '(ch, py, px) =>
         if inside p h w (anchor p (t_i t) + py) (anchor p (t_j t) + px)
            && bool_decide ([t_n t; ch;
                             anchor p (t_i t) + py - attr_pad p;
                             anchor p (t_j t) + px - attr_pad p] = e)
         then padded elt zero p b (t_n t) ch
                (anchor p (t_i t) + t_dy t * attr_stride_2 p + py)
                (anchor p (t_j t) + t_dx t * attr_stride_2 p + px)
         else zero) (window p c)).
Proof.
  intros Ha. unfold contributions_a. rewrite Ha. cbv zeta.
  rewrite semi_sum_filter_bind, <- semi_sum_scale. f_equal.
  apply map_ext. intros [[ch py] px].
  destruct (inside p h w _ _); cbn [andb].
  - rewrite filter_cons, filter_nil. cbn [fst].
    destruct (decide (_ = e)) as [E | N].
    + rewrite bool_decide_eq_true_2 by assumption. cbn [map snd].
      rewrite semi_sum_cons. unfold sum_list at 1. cbn. apply semi_add_0_r.
    + rewrite bool_decide_eq_false_2 by assumption.
      unfold sum_list. cbn. symmetry. apply SR.
  - rewrite filter_nil. unfold sum_list. cbn. symmetry. apply SR.
Qed.

Lemma tuple_step_a (p : Attrs) (a b g : Tensor elt) (e : list Z) (d : elt)
    (t : tuple) (n0 c h w : Z) :
  shape a = [n0; c; h; w] ->
  at_ g (output_index p t)
    *' correlation elt zero add mul p (bump add a e d) b c t
  = at_ g (output_index p t) *' correlation elt zero add mul p a b c t
    +' d *' sum (map snd (filter (fun k => k.1 = e)
                            (contributions_a elt zero mul p a b g t))).
Proof.
  intros Ha. rewrite (contributions_a_at p a b g e t n0 c h w Ha).
  rewrite <- semi_scale_perturbed. f_equal. unfold correlation. cbv zeta.
  apply semi_sum_perturbed, Forall_forall. intros [[ch py] px] _.
  rewrite (padded_bump p a e d n0 c h w _ _ _ _ Ha).
  destruct (_ && _).
  - apply semi_distr_r.
  - rewrite (sr_mul_0_r _ _ _ SR). symmetry. apply semi_add_0_r.
Qed.


(** what one tuple adds to the gradient of B at [e] *)
Lemma contributions_b_at (p : Attrs) (a b g : Tensor elt) (e : list Z)
    (t : tuple) (n0 c h w : Z) :
  shape b = [n0; c; h; w] ->
  sum (map snd (filter (fun k => k.1 = e)
                  (contributions_b elt zero mul p a b g t)))
  = at_ g (output_index p t)
    *' sum (map (fun '(ch, py, px) =>
         if inside p h w
              (anchor p (t_i t) + t_dy t * attr_stride_2 p + py)
              (anchor p (t_j t) + t_dx t * attr_stride_2 p + px)
            && bool_decide
                 ([t_n t; ch;
                   anchor p (t_i t) + t_dy t * attr_stride_2 p + py
                     - attr_pad p;
                   anchor p (t_j t) + t_dx t * attr_stride_2 p + px
                     - attr_pad p] = e)
         then padded elt zero p a (t_n t) ch
                (anchor p (t_i t) + py) (anchor p (t_j t) + px)
         else zero) (window p c)).
Proof.
  intros Hb. unfold contributions_b. rewrite Hb. cbv zeta.
  rewrite semi_sum_filter_bind, <- semi_sum_scale. f_equal.
  apply map_ext. intros [[ch py] px].
  destruct (inside p h w _ _); cbn [andb].
  - rewrite filter_cons, filter_nil. cbn [fst].
    destruct (decide (_ = e)) as [E | N].
    + rewrite bool_decide_eq_true_2 by assumption. cbn [map snd].
      rewrite semi_sum_cons. unfold sum_list at 1. cbn. apply semi_add_0_r.
    + rewrite bool_decide_eq_false_2 by assumption.
      unfold sum_list. cbn. symmetry. apply SR.
  - rewrite filter_nil. unfold sum_list. cbn. symmetry. apply SR.
Qed.

Lemma tuple_step_b (p : Attrs) (a b g : Tensor elt) (e : list Z) (d : elt)
    (t : tuple) (n0 c h w : Z) :
  shape b = [n0; c; h; w] ->
  at_ g (output_index p t)
    *' correlation elt zero add mul p a (bump add b e d) c t
  = at_ g (output_index p t) *' correlation elt zero add mul p a b c t
    +' d *' sum (map snd (filter (fun k => k.1 = e)
                            (contributions_b elt zero mul p a b g t))).
Proof.
  intros Hb. rewrite (contributions_b_at p a b g e t n0 c h w Hb).
  rewrite <- semi_scale_perturbed. f_equal. unfold correlation. cbv zeta.
  apply semi_sum_perturbed, Forall_forall. intros [[ch py] px] _.
  rewrite (padded_bump p b e d n0 c h w _ _ _ _ Hb).
  destruct (_ && _).
  - rewrite (sr_distr_l _ _ _ SR). f_equal. apply SR.
  - rewrite (sr_mul_0_r _ _ _ SR). symmetry. apply semi_add_0_r.
Qed.

Lemma map_ext_Forall {X Y} (f f' : X -> Y) (l : list X) :
  Forall (fun x => f x = f' x) l -> map f l = map f' l.
Proof. induction 1 as [|x l Hx _ IH]; cbn; [reflexivity | congruence]. Qed.

(** the loss is the sum, over the tuples, of the upstream gradient times
    the correlation *)
Lemma loss_correlation (p : Attrs) (a b g : Tensor elt)
    (n c' h' w' n0 c h w : Z) :
  shape g = [n; c'; h'; w'] -> shape a = [n0; c; h; w] ->
  loss zero add mul p a b g
  = sum (map (fun t => at_ g (output_index p t)
                       *' correlation elt zero add mul p a b c t)
           (tuples p n h' w')).
Proof.
  intros Hg Ha. unfold loss. rewrite Hg. f_equal.
  apply map_ext_Forall.
  eapply Forall_impl; [apply tuples_bounds |]. intros t [Hdy Hdx]. cbn beta.
  rewrite (forward_core_at p a b _ t n0 c h w Ha Hdy Hdx). reflexivity.
Qed.

Lemma loss_bump_a (p : Attrs) (a b g : Tensor elt) (e : list Z) (d : elt)
    (n c' h' w' n0 c h w : Z) :
  shape g = [n; c'; h'; w'] -> shape a = [n0; c; h; w] ->
  loss zero add mul p (bump add a e d) b g
  = loss zero add mul p a b g
    +' d *' at_ (backward_core elt zero add mul p a b g).1 e.
Proof.
  intros Hg Ha.
  rewrite (loss_correlation p (bump add a e d) b g n c' h' w' n0 c h w Hg Ha).
  rewrite (loss_correlation p a b g n c' h' w' n0 c h w Hg Ha).
  unfold backward_core. cbn [fst at_].
  rewrite SpecKernelFacts.scatter_add_sum.
  unfold all_contributions_a. rewrite Hg. rewrite semi_sum_filter_bind.
  apply semi_sum_perturbed, Forall_forall. intros t _.
  apply (tuple_step_a p a b g e d t n0 c h w Ha).
Qed.

Lemma loss_bump_b (p : Attrs) (a b g : Tensor elt) (e : list Z) (d : elt)
    (n c' h' w' na ha wa n0 c h w : Z) :
  shape g = [n; c'; h'; w'] ->
  shape a = [na; c; ha; wa] -> shape b = [n0; c; h; w] ->
  loss zero add mul p a (bump add b e d) g
  = loss zero add mul p a b g
    +' d *' at_ (backward_core elt zero add mul p a b g).2 e.
Proof.
  intros Hg Ha Hb.
  rewrite (loss_correlation p a (bump add b e d) g n c' h' w' na c ha wa Hg Ha).
  rewrite (loss_correlation p a b g n c' h' w' na c ha wa Hg Ha).
  unfold backward_core. cbn [snd at_].
  rewrite SpecKernelFacts.scatter_add_sum.
  unfold all_contributions_b. rewrite Hg. rewrite semi_sum_filter_bind.
  apply semi_sum_perturbed, Forall_forall. intros t _.
  apply (tuple_step_b p a b g e d t n0 c h w Hb).
Qed.

End Derivative.

(** ShapeInference accepts only two equal shapes of rank 4. *)
Lemma shape_inference_inv (p : Attrs) (sa sb out : Shape) :
  SpecKernel.shape_inference p sa sb = Ok out ->
  sb = sa /\ (exists n c h w, sa = [n; c; h; w])
  /\ exists n c' h' w', out = [n; c'; h'; w'].
Proof.
  unfold SpecKernel.shape_inference.
  destruct (decide (sa = sb)) as [<- | N];
    [rewrite bool_decide_eq_true_2 by reflexivity
    | rewrite bool_decide_eq_false_2 by assumption; discriminate].
  cbn [negb].
  destruct sa as [|n [|c [|h [|w [|? ?]]]]]; try discriminate.
  destruct (_ || _); [discriminate |].
  destruct (_ || _); [discriminate |].
  intros [= <-]. repeat split; eauto.
Qed.

(** C7, on the kernels of [SpecKernel]: on a valid invocation the gradient
    function invokes the gradient kernel once, on the two inputs and the
    upstream gradient, and returns a list of exactly two tensors, the first
    two outputs of the kernel in the order of the kernel, whatever the
    kernel.  With the kernel of [SpecKernel] the first tensor has the shape
    of the first input and is the gradient with respect to it, the second
    has the shape of the second input and is the gradient with respect to
    it: over a commutative semiring, adding [d] to the element (n, c, y, x)
    of an input changes the scalar [loss] by [d] times the element of the
    corresponding returned tensor. *)
Theorem gradient_pair_in_order {elt} (zero : elt)
    (add mul : elt -> elt -> elt)
    (op : Operation elt) (a b g : Tensor elt) (w : World) :
  op_inputs op = [a; b] ->
  SpecKernel.valid_invocation (op_attrs op) a b g ->
  let p := op_attrs op in
  let tag := attr_data_format p in
  (forall bwd ga gb rest,
     bwd a b g p = Ok (ga :: gb :: rest) ->
     run (_correlation_cost_grad bwd op g) w
     = (Ok [ga; gb], w, [CallCorrelationCostGrad a b g p]))
  /\ exists ga gb a' b',
       run (_correlation_cost_grad
              (SpecKernel.backward elt zero add mul) op g) w
       = (Ok [ga; gb], w, [CallCorrelationCostGrad a b g p])
       /\ SpecKernel.to_canonical elt tag a = Ok a'
       /\ SpecKernel.to_canonical elt tag b = Ok b'
       /\ shape ga = shape a /\ shape gb = shape b
       /\ (semiring zero add mul ->
           forall n c y x d,
             loss zero add mul p (bump add a' [n; c; y; x] d) b' g
             = add (loss zero add mul p a' b' g)
                 (mul d (at_ ga (SpecKernel.layout_index tag n c y x)))
             /\ loss zero add mul p a' (bump add b' [n; c; y; x] d) g
                = add (loss zero add mul p a' b' g)
                    (mul d (at_ gb (SpecKernel.layout_index tag n c y x)))).
Proof.
  intros Hin Hvalid. cbv zeta.
  split.
  { intros bwd ga gb rest Hk.
    apply (correlation_cost_grad_run bwd op a b g ga gb [] rest w Hin Hk). }
  pose proof Hvalid as (Ha & Hb & Htag & Hinf).
  destruct (SpecKernelFacts.to_canonical_rank4 _ a Ha Htag)
    as (a1 & Ea1 & Sa1 & _).
  destruct (SpecKernelFacts.to_canonical_rank4 _ b Hb Htag)
    as (b1 & Eb1 & Sb1 & _).
  destruct (SpecKernelFacts.backward_valid zero add mul _ a b g Hvalid)
    as (a' & b' & ga & gb & Ea & Eb & Hk & Sa & Sb & Hat).
  rewrite Ea in Ea1. injection Ea1 as <-.
  rewrite Eb in Eb1. injection Eb1 as <-.
  exists ga, gb, a', b'.
  rewrite (correlation_cost_grad_run _ op a b g ga gb [] [] w Hin Hk).
  repeat split; try assumption.
  - destruct (Hat n c y x) as [-> _].
    apply shape_inference_inv in Hinf
      as (_ & (n0 & c0 & h0 & w0 & Hsa) & (n1 & c1 & h1 & w1 & Hg)).
    rewrite <- Sa1 in Hsa.
    apply (loss_bump_a zero add mul H (op_attrs op) a' b' g [n; c; y; x] d
             n1 c1 h1 w1 n0 c0 h0 w0 Hg Hsa).
  - destruct (Hat n c y x) as [_ ->].
    apply shape_inference_inv in Hinf
      as (Hsb & (n0 & c0 & h0 & w0 & Hsa) & (n1 & c1 & h1 & w1 & Hg)).
    rewrite Hsa in Hsb. rewrite <- Sa1 in Hsa. rewrite <- Sb1 in Hsb.
    apply (loss_bump_b zero add mul H (op_attrs op) a' b' g [n; c; y; x] d
             n1 c1 h1 w1 n0 h0 w0 n0 c0 h0 w0 Hg Hsa Hsb).
Qed.

Lemma gradient_pair_in_order_witness :
  let a := ramp [1; 2; 2; 1] 1 in
  let b := ramp [1; 2; 2; 1] 11 in
  let g := ramp [1; 9; 2; 2] 100 in
  let p := mkAttrs 1 1 1 1 1 "NHWC" in
  let op := mkOperation p [a; b] in
  let w := mkWorld [] ["Addons>CorrelationCost"] in
  exists ga gb a' b',
    run (_correlation_cost_grad (SpecKernel.backward Z 0 Z.add Z.mul) op g) w
    = (Ok [ga; gb], w, [CallCorrelationCostGrad a b g p])
    /\ SpecKernel.to_canonical Z "NHWC" a = Ok a'
    /\ SpecKernel.to_canonical Z "NHWC" b = Ok b'
    /\ shape ga = [1; 2; 2; 1] /\ shape gb = [1; 2; 2; 1]
    /\ forall n c y x d,
         loss 0 Z.add Z.mul p (bump Z.add a' [n; c; y; x] d) b' g
         = loss 0 Z.add Z.mul p a' b' g
           + d * at_ ga (SpecKernel.layout_index "NHWC" n c y x)
         /\ loss 0 Z.add Z.mul p a' (bump Z.add b' [n; c; y; x] d) g
            = loss 0 Z.add Z.mul p a' b' g
              + d * at_ gb (SpecKernel.layout_index "NHWC" n c y x).
Proof.
  intros a b g p op w.
  destruct (gradient_pair_in_order 0 Z.add Z.mul op a b g w eq_refl)
    as (_ & ga & gb & a' & b' & Hrun & Ea & Eb & Sa & Sb & Hd).
  { repeat split; try reflexivity. right. reflexivity. }
  exists ga, gb, a', b'.
  split; [exact Hrun |]. split; [exact Ea |]. split; [exact Eb |].
  split; [exact Sa |]. split; [exact Sb |].
  intros n c y x d. apply Hd. constructor; intros; ring.
Defined.

(** The two returned tensors told apart on equal input shapes: on 2x2
    inputs with a unit kernel, displacement 1 and padding 1, raising element
    (0, 0, 0, 1) of the first input by 1 raises the loss by the element of
    the first returned tensor, raising it in the second input raises the
    loss by the element of the second, and the two differ. *)
Lemma gradient_finite_difference_example :
  let a := ramp [1; 1; 2; 2] 1 in
  let b := ramp [1; 1; 2; 2] 11 in
  let g := ramp [1; 9; 2; 2] 100 in
  let p := mkAttrs 1 1 1 1 1 "NCHW" in
  let grads :=
    outcome (run (_correlation_cost_grad
                    (SpecKernel.backward Z 0 Z.add Z.mul)
                    (mkOperation p [a; b]) g) (mkWorld [] [])) in
  (map (fun t => at_ t [0; 0; 0; 1]) <$> grads) = Ok [42766; 7544]
  /\ loss 0 Z.add Z.mul p (bump Z.add a [0; 0; 0; 1] 1) b g
     - loss 0 Z.add Z.mul p a b g = 42766
  /\ loss 0 Z.add Z.mul p a (bump Z.add b [0; 0; 0; 1] 1) g
     - loss 0 Z.add Z.mul p a b g = 7544.
Proof. repeat split; vm_compute; reflexivity. Qed.

(** C2, on the kernels of [SpecKernel]: on a valid invocation, the gradient
    returned for each input holds, at every element (n, c, y, x), the sum of
    all the contributions that the tuples (n, i, j, dy, dx) of the iteration
    space land on that element, each of them counted, in the order of the
    enumeration; this is so in particular where several tuples land on the
    same element. *)
Theorem backward_is_scatter_add {elt} (zero : elt)
    (add mul : elt -> elt -> elt)
    (op : Operation elt) (a b g : Tensor elt) (w : World) :
  op_inputs op = [a; b] ->
  SpecKernel.valid_invocation (op_attrs op) a b g ->
  let p := op_attrs op in
  let tag := attr_data_format p in
  exists ga gb a' b',
    outcome (run (_correlation_cost_grad
                    (SpecKernel.backward elt zero add mul) op g) w)
    = Ok [ga; gb]
    /\ SpecKernel.to_canonical elt tag a = Ok a'
    /\ SpecKernel.to_canonical elt tag b = Ok b'
    /\ forall n c y x,
         at_ ga (SpecKernel.layout_index tag n c y x)
         = SpecKernel.sum_list elt zero add
             (map snd (filter (fun k => k.1 = [n; c; y; x])
                (SpecKernel.all_contributions_a elt zero mul p a' b' g)))
         /\ at_ gb (SpecKernel.layout_index tag n c y x)
            = SpecKernel.sum_list elt zero add
                (map snd (filter (fun k => k.1 = [n; c; y; x])
                   (SpecKernel.all_contributions_b elt zero mul p a' b' g))).
Proof.
  intros Hin Hvalid. cbv zeta.
  destruct (SpecKernelFacts.backward_valid zero add mul _ a b g Hvalid)
    as (a' & b' & ga & gb & Ea & Eb & Hk & _ & _ & Hat).
  exists ga, gb, a', b'.
  rewrite (correlation_cost_grad_run _ op a b g ga gb [] [] w Hin Hk).
  repeat split; try assumption.
  - destruct (Hat n c y x) as [-> _]. cbn [SpecKernel.backward_core fst at_].
    apply SpecKernelFacts.scatter_add_sum.
  - destruct (Hat n c y x) as [_ ->]. cbn [SpecKernel.backward_core snd at_].
    apply SpecKernelFacts.scatter_add_sum.
Qed.

Lemma backward_is_scatter_add_witness :
  let a := ramp [1; 1; 2; 2] 1 in
  let b := ramp [1; 1; 2; 2] 11 in
  let g := ramp [1; 9; 2; 2] 100 in
  let p := mkAttrs 1 1 1 1 1 "NCHW" in
  let op := mkOperation p [a; b] in
  exists ga gb a' b',
    outcome (run (_correlation_cost_grad
                    (SpecKernel.backward Z 0 Z.add Z.mul) op g)
               (mkWorld [] []))
    = Ok [ga; gb]
    /\ SpecKernel.to_canonical Z "NCHW" a = Ok a'
    /\ SpecKernel.to_canonical Z "NCHW" b = Ok b'
    /\ forall n c y x,
         at_ ga (SpecKernel.layout_index "NCHW" n c y x)
         = SpecKernel.sum_list Z 0 Z.add
             (map snd (filter (fun k => k.1 = [n; c; y; x])
                (SpecKernel.all_contributions_a Z 0 Z.mul p a' b' g)))
         /\ at_ gb (SpecKernel.layout_index "NCHW" n c y x)
            = SpecKernel.sum_list Z 0 Z.add
                (map snd (filter (fun k => k.1 = [n; c; y; x])
                   (SpecKernel.all_contributions_b Z 0 Z.mul p a' b' g))).
Proof.
  intros a b g p op.
  apply (backward_is_scatter_add 0 Z.add Z.mul op a b g (mkWorld [] [])
           eq_refl).
  repeat split; try reflexivity. left. reflexivity.
Defined.

(** An element several tuples land on: with a unit kernel, displacement 1
    and padding 1 on 2x2 inputs, four tuples with a non-zero product land on
    element (0, 0, 0, 1) of each input.  The gradients hold the four
    contributions added up, not the last one written. *)
Lemma scatter_add_overlap_example :
  let a := ramp [1; 1; 2; 2] 1 in
  let b := ramp [1; 1; 2; 2] 11 in
  let g := ramp [1; 9; 2; 2] 100 in
  let p := mkAttrs 1 1 1 1 1 "NCHW" in
  let op := mkOperation p [a; b] in
  let grads :=
    outcome (run (_correlation_cost_grad
                    (SpecKernel.backward Z 0 Z.add Z.mul) op g)
               (mkWorld [] [])) in
  map snd (filter (fun k => k.1 = [0; 0; 0; 1])
             (SpecKernel.all_contributions_a Z 0 Z.mul p a b g))
  = [0; 0; 0; 4411; 6012; 0; 14721; 17622; 0]
  /\ map snd (filter (fun k => k.1 = [0; 0; 0; 1])
                (SpecKernel.all_contributions_b Z 0 Z.mul p a b g))
     = [600; 1002; 3410; 2532]
  /\ (map (fun t => at_ t [0; 0; 0; 1]) <$> grads)
     = Ok [4411 + 6012 + 14721 + 17622; 600 + 1002 + 3410 + 2532].
Proof. repeat split; vm_compute; reflexivity. Qed.

(** ** The forward pass on the kernels of [SpecKernel] *)

Lemma shape_inference_rank (p : Attrs) (sa sb out : Shape) :
  SpecKernel.shape_inference p sa sb = Ok out -> length out = 4%nat.
Proof.
  unfold SpecKernel.shape_inference.
  destruct (negb (bool_decide (sa = sb))); [discriminate |].
  destruct sa as [|n [|c [|h [|w [|? ?]]]]]; try discriminate.
  destruct (_ || _); [discriminate |].
  destruct (_ || _); [discriminate |].
  intros [= <-]. reflexivity.
Qed.

(** Under [channels_last], on two rank-4 inputs that pass ShapeInference,
    the forward wrapper returns the cost volume of the canonical
    computation with its channel axis moved last: element (n, i, j, ch) of
    the result is element (n, ch, i, j) of [forward_core]. *)
Lemma forward_channels_last_elements {elt} (zero : elt)
    (add mul : elt -> elt -> elt) (a b : Tensor elt) (ks md s1 s2 pd : Z)
    (name : option string) (w : World) (out : Shape) :
  let p := mkAttrs ks md s1 s2 pd "NHWC" in
  length (shape a) = 4%nat -> length (shape b) = 4%nat ->
  SpecKernel.shape_inference p
    (SpecKernel.canonical_shape "NHWC" (shape a))
    (SpecKernel.canonical_shape "NHWC" (shape b)) = Ok out ->
  exists a' b' t,
    transpose a [0; 3; 1; 2]%nat = Ok a'
    /\ transpose b [0; 3; 1; 2]%nat = Ok b'
    /\ outcome (run (_correlation_cost (SpecKernel.forward elt zero add mul)
                       a b ks md s1 s2 pd "channels_last" name) w) = Ok t
    /\ shape t = permute 0 [0; 2; 3; 1]%nat out
    /\ forall n i j ch,
         at_ t [n; i; j; ch]
         = at_ (SpecKernel.forward_core elt zero add mul p a' b' out)
             [n; ch; i; j].
Proof.
  intros p Ha Hb Hinf.
  pose proof (shape_inference_rank _ _ _ _ Hinf) as Hout.
  rewrite correlation_cost_channels_last. unfold outcome. cbn [fst].
  unfold SpecKernel.forward, SpecKernel.to_canonical, transpose.
  cbn [attr_data_format String.eqb Ascii.eqb Bool.eqb].
  rewrite Ha, Hb. cbn [Nat.eqb length mbind result_bind shape].
  fold p. unfold SpecKernel.canonical_shape in Hinf.
  cbn [String.eqb Ascii.eqb Bool.eqb] in Hinf. rewrite Hinf.
  cbn [mbind result_bind SpecKernel.forward_core shape].
  rewrite Hout. cbn [Nat.eqb length].
  eexists _, _, _. repeat split.
Qed.

(** * Further properties of the layer and of the wrappers *)

(** ** Shape inference: which inputs it accepts *)

Ltac shape_cases sa sb :=
  destruct sa as [|?a0 [|?a1 [|?a2 [|?a3 ?ta]]]];
  destruct sb as [|?b0 [|?b1 [|?b2 [|?b3 ?tb]]]].

(** On two shapes of rank 4 or more, [compute_output_shape] follows the
    decision table. *)
Lemma compute_output_shape_rank4 {K} (self : CorrelationCost K)
    (sa sb : Shape) :
  (4 <= length sa)%nat -> (4 <= length sb)%nat ->
  compute_output_shape self (ShapeList [sa; sb]) = shape_table self sa sb.
Proof.
  intros Ha Hb.
  destruct sa as [|a0 [|a1 [|a2 [|a3 ta]]]]; cbn in Ha; try lia.
  destruct sb as [|b0 [|b1 [|b2 [|b3 tb]]]]; cbn in Hb; try lia.
  unfold compute_output_shape, shape_table, inferred_shape, floordiv.
  cbn -[Z.mul Z.div Z.pow Z.add Z.sub Z.eqb String.eqb].
  destruct (Z.eqb_spec a0 b0), (Z.eqb_spec a1 b1), (Z.eqb_spec a2 b2),
    (Z.eqb_spec a3 b3); subst;
    try (rewrite bool_decide_eq_false_2 by congruence; reflexivity).
  rewrite bool_decide_eq_true_2 by reflexivity.
  cbn -[Z.mul Z.div Z.pow Z.add Z.sub Z.eqb String.eqb].
  destruct (stride_2 self =? 0); [reflexivity |].
  cbn -[Z.mul Z.div Z.pow Z.add Z.sub Z.eqb String.eqb].
  destruct (data_format self =? "channels_first")%string;
    cbn -[Z.mul Z.div Z.pow Z.add Z.sub Z.eqb String.eqb].
  - destruct (stride_1 self =? 0); reflexivity.
  - destruct (data_format self =? "channels_last")%string;
      cbn -[Z.mul Z.div Z.pow Z.add Z.sub Z.eqb String.eqb];
      [destruct (stride_1 self =? 0) |]; reflexivity.
Qed.

(** A shape of rank below 4 never yields a result. *)
Lemma compute_output_shape_low_rank_fails {K} (self : CorrelationCost K)
    (sa sb : Shape) (out : list Shape) :
  (length sa < 4)%nat \/ (length sb < 4)%nat ->
  compute_output_shape self (ShapeList [sa; sb]) <> Ok out.
Proof.
  intros Hshort.
  shape_cases sa sb; cbn in Hshort; try lia;
    unfold compute_output_shape;
    cbn -[Z.mul Z.div Z.pow Z.add Z.sub Z.eqb String.eqb floordiv];
    repeat match goal with
    | |- context [negb (?x =? ?y)] => destruct (x =? y); cbn -[floordiv]
    end; discriminate.
Qed.

Lemma shape_table_ok {K} (self : CorrelationCost K) (sa sb : Shape)
    (out : list Shape) :
  shape_table self sa sb = Ok out <->
  take 4 sa = take 4 sb /\ stride_1 self <> 0 /\ stride_2 self <> 0
  /\ recognised (data_format self) /\ out = [inferred_shape self sa].
Proof.
  unfold shape_table, recognised.
  destruct (decide (take 4 sa = take 4 sb)) as [E | N].
  2: { rewrite bool_decide_eq_false_2 by assumption. cbn.
       split; [discriminate | tauto]. }
  rewrite bool_decide_eq_true_2 by assumption. cbn [negb].
  destruct (Z.eqb_spec (stride_2 self) 0) as [E2 | N2];
    [split; [discriminate | tauto] |].
  destruct (String.eqb_spec (data_format self) "channels_first") as [Ef | Nf];
    destruct (String.eqb_spec (data_format self) "channels_last") as [El | Nl];
    cbn [negb andb];
    try (split; [discriminate | tauto]);
    destruct (Z.eqb_spec (stride_1 self) 0) as [E1 | N1];
    try (split; [discriminate | tauto]);
    (split; [intros [= <-]; tauto | intros (_ & _ & _ & _ & ->); reflexivity]).
Qed.

(** What a result of [compute_output_shape] says of its input. *)
Lemma compute_output_shape_ok_inv {K} (self : CorrelationCost K)
    (input_shape : shape_arg) (out : list Shape) :
  compute_output_shape self input_shape = Ok out ->
  exists sa sb,
    input_shape = ShapeList [sa; sb]
    /\ (4 <= length sa)%nat /\ (4 <= length sb)%nat
    /\ take 4 sa = take 4 sb
    /\ stride_1 self <> 0 /\ stride_2 self <> 0
    /\ recognised (data_format self)
    /\ out = [inferred_shape self sa].
Proof.
  destruct input_shape as [l | s]; [| discriminate].
  destruct l as [|sa [|sb [|sc l]]]; try discriminate.
  intros Hok. exists sa, sb.
  destruct (le_lt_dec 4 (length sa)) as [Ha | Ha];
    [| exfalso; revert Hok;
       apply compute_output_shape_low_rank_fails; left; exact Ha].
  destruct (le_lt_dec 4 (length sb)) as [Hb | Hb];
    [| exfalso; revert Hok;
       apply compute_output_shape_low_rank_fails; right; exact Hb].
  rewrite (compute_output_shape_rank4 self sa sb Ha Hb) in Hok.
  apply shape_table_ok in Hok. tauto.
Qed.

(** X1: [compute_output_shape] returns a result exactly when it is given a
    list of two shapes of rank 4 or more whose first four axes agree, both
    strides are non-zero and the layout tag is recognised; the result is
    then the one shape read off the first input. *)
Theorem compute_output_shape_succeeds_iff {K} (self : CorrelationCost K)
    (input_shape : shape_arg) (out : list Shape) :
  compute_output_shape self input_shape = Ok out <->
  exists sa sb,
    input_shape = ShapeList [sa; sb]
    /\ (4 <= length sa)%nat /\ (4 <= length sb)%nat
    /\ take 4 sa = take 4 sb
    /\ stride_1 self <> 0 /\ stride_2 self <> 0
    /\ recognised (data_format self)
    /\ out = [inferred_shape self sa].
Proof.
  split.
  - apply compute_output_shape_ok_inv.
  - intros (sa & sb & -> & Ha & Hb & H).
    rewrite (compute_output_shape_rank4 self sa sb Ha Hb).
    apply shape_table_ok. tauto.
Qed.

Lemma compute_output_shape_succeeds_iff_witness :
  compute_output_shape (layer 3 4 2 2 6 "channels_last")
    (ShapeList [[2; 10; 12; 8; 99]; [2; 10; 12; 8; 7]])
  = Ok [[2; 11; 13; 25]].
Proof.
  apply (proj2 (compute_output_shape_succeeds_iff
                  (layer 3 4 2 2 6 "channels_last")
                  (ShapeList [[2; 10; 12; 8; 99]; [2; 10; 12; 8; 7]])
                  [[2; 11; 13; 25]])).
  exists [2; 10; 12; 8; 99], [2; 10; 12; 8; 7].
  repeat split; try reflexivity; try (cbn; lia); try discriminate.
  left. reflexivity.
Defined.

(** X2: only the first four axes of each shape are read: the outcome on two
    shapes, result or exception, is the outcome on their first four axes. *)
Theorem compute_output_shape_first_four_axes {K} (self : CorrelationCost K)
    (sa sb : Shape) :
  compute_output_shape self (ShapeList [sa; sb])
  = compute_output_shape self (ShapeList [take 4 sa; take 4 sb]).
Proof.
  shape_cases sa sb; reflexivity.
Qed.

(** X3: when one of the two shapes has fewer than four axes and the shapes
    agree on the axes both have, the validation loop runs off the shorter
    shape: [IndexError], not one of the [ValueError]s of the method. *)
Theorem compute_output_shape_low_rank {K} (self : CorrelationCost K)
    (sa sb : Shape) :
  (length sa < 4)%nat \/ (length sb < 4)%nat ->
  (forall (i : nat) (x y : Z), sa !! i = Some x -> sb !! i = Some y -> x = y) ->
  compute_output_shape self (ShapeList [sa; sb]) = Raise IndexError.
Proof.
  intros Hshort Hagree.
  shape_cases sa sb; cbn in Hshort; try lia;
    repeat match goal with
    | a : Z, b : Z |- _ =>
      lazymatch goal with
      | H : a = b |- _ => fail
      | _ => first [ assert (a = b) by (apply (Hagree 0%nat); reflexivity)
                   | assert (a = b) by (apply (Hagree 1%nat); reflexivity)
                   | assert (a = b) by (apply (Hagree 2%nat); reflexivity)
                   | assert (a = b) by (apply (Hagree 3%nat); reflexivity) ]
      end
    end; subst;
    unfold compute_output_shape;
    cbn -[Z.mul Z.div Z.pow Z.add Z.sub Z.eqb String.eqb floordiv];
    rewrite ?Z.eqb_refl; reflexivity.
Qed.

Lemma compute_output_shape_low_rank_witness :
  compute_output_shape (layer 3 4 2 2 6 "channels_last")
    (ShapeList [[2; 10; 12]; [2; 10; 12; 8]]) = Raise IndexError.
Proof.
  apply (compute_output_shape_low_rank (layer 3 4 2 2 6 "channels_last")
           [2; 10; 12] [2; 10; 12; 8]).
  - left. cbn. lia.
  - intros i x y Hx Hy. destruct i as [|[|[|i]]]; cbn in Hx, Hy;
      try congruence. destruct i; discriminate Hx.
Defined.

(** X4: two shapes of rank 4 or more that differ in one of the first four
    axes are rejected with the [ValueError] of the shape check, whatever the
    parameters of the layer: the check comes before any arithmetic and
    before the layout tag is looked at. *)
Theorem compute_output_shape_mismatch_first {K} (self : CorrelationCost K)
    (sa sb : Shape) :
  (4 <= length sa)%nat -> (4 <= length sb)%nat ->
  take 4 sa <> take 4 sb ->
  compute_output_shape self (ShapeList [sa; sb])
  = Raise (ValueError msg_shapes_match).
Proof.
  intros Ha Hb Hne. rewrite (compute_output_shape_rank4 self sa sb Ha Hb).
  unfold shape_table. rewrite bool_decide_eq_false_2 by assumption.
  reflexivity.
Qed.

Lemma compute_output_shape_mismatch_first_witness :
  compute_output_shape (layer 3 4 0 0 6 "NHWC")
    (ShapeList [[2; 10; 12; 8; 1]; [2; 10; 11; 8; 1]])
  = Raise (ValueError msg_shapes_match).
Proof.
  apply (compute_output_shape_mismatch_first (layer 3 4 0 0 6 "NHWC")
           [2; 10; 12; 8; 1] [2; 10; 11; 8; 1]).
  - cbn. lia.
  - cbn. lia.
  - discriminate.
Defined.

(** X5: a layer whose [data_format] attribute holds neither tag raises, on
    two matching shapes, the [ValueError] of the last branch whatever
    [stride_1] is, since the extents are never computed; a [stride_2] equal
    to 0 is met first and raises [ZeroDivisionError] instead. *)
Theorem compute_output_shape_unrecognised {K} (self : CorrelationCost K)
    (sa sb : Shape) :
  (4 <= length sa)%nat -> (4 <= length sb)%nat -> take 4 sa = take 4 sb ->
  ~ recognised (data_format self) ->
  compute_output_shape self (ShapeList [sa; sb])
  = if stride_2 self =? 0 then Raise ZeroDivisionError
    else Raise (ValueError msg_data_format).
Proof.
  intros Ha Hb He Hdf. rewrite (compute_output_shape_rank4 self sa sb Ha Hb).
  unfold shape_table, recognised in *.
  rewrite bool_decide_eq_true_2 by assumption. cbn [negb].
  destruct (stride_2 self =? 0); [reflexivity |].
  destruct (String.eqb_spec (data_format self) "channels_first");
    destruct (String.eqb_spec (data_format self) "channels_last");
    cbn [negb andb]; tauto.
Qed.

Lemma compute_output_shape_unrecognised_witness :
  compute_output_shape (layer 3 4 0 2 6 "NHWC")
    (ShapeList [[2; 10; 12; 8]; [2; 10; 12; 8]])
  = Raise (ValueError msg_data_format)
  /\ compute_output_shape (layer 3 4 0 0 6 "NHWC")
       (ShapeList [[2; 10; 12; 8]; [2; 10; 12; 8]])
     = Raise ZeroDivisionError.
Proof.
  split.
  - apply (compute_output_shape_unrecognised (layer 3 4 0 2 6 "NHWC")
             [2; 10; 12; 8] [2; 10; 12; 8]);
      [cbn; lia | cbn; lia | reflexivity |].
    intros [H | H]; discriminate H.
  - apply (compute_output_shape_unrecognised (layer 3 4 0 0 6 "NHWC")
             [2; 10; 12; 8] [2; 10; 12; 8]);
      [cbn; lia | cbn; lia | reflexivity |].
    intros [H | H]; discriminate H.
Defined.

(** ** Shape inference: what it returns *)

Lemma output_c_positive_odd {K} (self : CorrelationCost K) :
  1 <= output_c self /\ Z.odd (output_c self) = true.
Proof.
  unfold output_c. set (r := max_displacement self / stride_2 self).
  rewrite Z.pow_2_r. split; [nia |].
  rewrite Z.odd_mul, (Z.add_comm (2 * r) 1), Z.odd_add_mul_2. reflexivity.
Qed.

(** X6: a result of [compute_output_shape] is a list of one shape of rank 4.
    Its first axis is the batch axis of both inputs; its channel axis, second
    under [channels_first] and last under [channels_last], is an odd number
    that is at least 1, whatever the signs of the parameters. *)
Theorem compute_output_shape_result {K} (self : CorrelationCost K)
    (input_shape : shape_arg) (out : list Shape) :
  compute_output_shape self input_shape = Ok out ->
  exists sa sb n c' h' w',
    input_shape = ShapeList [sa; sb]
    /\ sa !! 0%nat = Some n /\ sb !! 0%nat = Some n
    /\ out = (if (data_format self =? "channels_first")%string
              then [[n; c'; h'; w']] else [[n; h'; w'; c']])
    /\ 1 <= c' /\ Z.odd c' = true.
Proof.
  intros Hok. apply compute_output_shape_ok_inv in Hok
    as (sa & sb & -> & Ha & Hb & He & _ & _ & _ & ->).
  destruct sa as [|a0 [|a1 [|a2 [|a3 ta]]]]; cbn in Ha; try lia.
  destruct sb as [|b0 [|b1 [|b2 [|b3 tb]]]]; cbn in Hb; try lia.
  injection He as -> -> -> ->.
  destruct (output_c_positive_odd self) as [Hpos Hodd].
  unfold inferred_shape.
  destruct (data_format self =? "channels_first")%string;
    eexists _, _, _, _, _, _; repeat split; eassumption.
Qed.

Lemma compute_output_shape_result_witness :
  exists sa sb n c' h' w',
    ShapeList [[2; 8; 10; 12]; [2; 8; 10; 12]] = ShapeList [sa; sb]
    /\ sa !! 0%nat = Some n /\ sb !! 0%nat = Some n
    /\ [[2; 9; 22; 24]] = [[n; c'; h'; w']]
    /\ 1 <= c' /\ Z.odd c' = true.
Proof.
  exact (compute_output_shape_result (layer 3 4 (-1) (-3) (-1) "channels_first")
           (ShapeList [[2; 8; 10; 12]; [2; 8; 10; 12]]) [[2; 9; 22; 24]]
           eq_refl).
Defined.

(** X7: shape inference does not depend on the order of the two shapes:
    swapping them gives the same result or the same exception. *)
Theorem compute_output_shape_symmetric {K} (self : CorrelationCost K)
    (sa sb : Shape) :
  compute_output_shape self (ShapeList [sa; sb])
  = compute_output_shape self (ShapeList [sb; sa]).
Proof.
  shape_cases sa sb; try reflexivity;
    unfold compute_output_shape;
    cbn -[Z.mul Z.div Z.pow Z.add Z.sub Z.eqb String.eqb floordiv];
    repeat match goal with
    | |- context [negb (?x =? ?y)] =>
      rewrite (Z.eqb_sym y x);
      destruct (Z.eqb_spec x y);
      [subst; rewrite ?Z.eqb_refl |];
      cbn -[Z.mul Z.div Z.pow Z.add Z.sub Z.eqb String.eqb floordiv]
    end; reflexivity.
Qed.

Lemma output_extent_with_pad {K} (self : CorrelationCost K) (k h : Z) :
  stride_1 self <> 0 ->
  output_extent (with_pad self (pad self + k * stride_1 self)) h
  = output_extent self h + 2 * k.
Proof.
  intros H1. unfold output_extent, with_pad, bd. cbn.
  replace (2 * (pad self + k * stride_1 self
                - (max_displacement self + (kernel_size self - 1) / 2)))
    with (2 * (pad self - (max_displacement self + (kernel_size self - 1) / 2))
          + (2 * k) * stride_1 self) by lia.
  rewrite Z.div_add by assumption. lia.
Qed.

(** X8: padding by [k] more strides widens both output extents by [2*k]:
    for non-zero strides, the layer with [pad + k*stride_1] returns the
    extents of the layer with [pad] plus [2*k], and the same batch axis and
    channel count. *)
Theorem compute_output_shape_pad_step {K} (self : CorrelationCost K)
    (k n c h w : Z) :
  stride_1 self <> 0 -> stride_2 self <> 0 ->
  let wider := with_pad self (pad self + k * stride_1 self) in
  (data_format self = "channels_first" ->
   compute_output_shape wider (ShapeList [[n; c; h; w]; [n; c; h; w]])
   = Ok [[n; output_c self; output_extent self h + 2 * k;
          output_extent self w + 2 * k]])
  /\ (data_format self = "channels_last" ->
      compute_output_shape wider (ShapeList [[n; h; w; c]; [n; h; w; c]])
      = Ok [[n; output_extent self h + 2 * k;
             output_extent self w + 2 * k; output_c self]]).
Proof.
  intros H1 H2 wider. split; intros Hdf.
  - unfold wider.
    rewrite compute_output_shape_channels_first by assumption.
    rewrite !output_extent_with_pad by assumption. reflexivity.
  - unfold wider.
    rewrite compute_output_shape_channels_last by assumption.
    rewrite !output_extent_with_pad by assumption. reflexivity.
Qed.

Lemma compute_output_shape_pad_step_witness :
  compute_output_shape (layer 3 4 2 2 (6 + 3 * 2) "channels_first")
    (ShapeList [[2; 8; 10; 12]; [2; 8; 10; 12]])
  = Ok [[2; 25; 11 + 2 * 3; 13 + 2 * 3]]
  /\ compute_output_shape (layer 3 4 2 2 (6 + 3 * 2) "channels_last")
       (ShapeList [[2; 10; 12; 8]; [2; 10; 12; 8]])
     = Ok [[2; 11 + 2 * 3; 13 + 2 * 3; 25]].
Proof.
  split.
  - exact (proj1 (compute_output_shape_pad_step
                    (layer 3 4 2 2 6 "channels_first") 3 2 8 10 12
                    ltac:(discriminate) ltac:(discriminate)) eq_refl).
  - exact (proj2 (compute_output_shape_pad_step
                    (layer 3 4 2 2 6 "channels_last") 3 2 8 10 12
                    ltac:(discriminate) ltac:(discriminate)) eq_refl).
Defined.

(** X9: when the padding exceeds the border by a whole number [q] of strides,
    [pad - bd = q * stride_1], each spatial extent grows by exactly [2*q];
    with [pad = bd] the spatial extents of the input are returned
    unchanged. *)
Theorem compute_output_shape_exact_stride {K} (self : CorrelationCost K)
    (q n c h w : Z) :
  stride_1 self <> 0 -> stride_2 self <> 0 ->
  pad self - bd self = q * stride_1 self ->
  (data_format self = "channels_first" ->
   compute_output_shape self (ShapeList [[n; c; h; w]; [n; c; h; w]])
   = Ok [[n; output_c self; h + 2 * q; w + 2 * q]])
  /\ (data_format self = "channels_last" ->
      compute_output_shape self (ShapeList [[n; h; w; c]; [n; h; w; c]])
      = Ok [[n; h + 2 * q; w + 2 * q; output_c self]]).
Proof.
  intros H1 H2 Hq.
  assert (Hext : forall x, output_extent self x = x + 2 * q).
  { intros x. unfold output_extent. rewrite Hq.
    replace (2 * (q * stride_1 self)) with ((2 * q) * stride_1 self) by lia.
    rewrite Z.div_mul by assumption. reflexivity. }
  split; intros Hdf.
  - rewrite compute_output_shape_channels_first by assumption.
    rewrite !Hext. reflexivity.
  - rewrite compute_output_shape_channels_last by assumption.
    rewrite !Hext. reflexivity.
Qed.

Lemma compute_output_shape_exact_stride_witness :
  compute_output_shape (layer 3 4 2 2 9 "channels_first")
    (ShapeList [[2; 8; 10; 12]; [2; 8; 10; 12]])
  = Ok [[2; 25; 10 + 2 * 2; 12 + 2 * 2]]
  /\ compute_output_shape (layer 3 4 2 2 5 "channels_last")
       (ShapeList [[2; 10; 12; 8]; [2; 10; 12; 8]])
     = Ok [[2; 10 + 2 * 0; 12 + 2 * 0; 25]].
Proof.
  split.
  - exact (proj1 (compute_output_shape_exact_stride
                    (layer 3 4 2 2 9 "channels_first") 2 2 8 10 12
                    ltac:(discriminate) ltac:(discriminate) eq_refl) eq_refl).
  - exact (proj2 (compute_output_shape_exact_stride
                    (layer 3 4 2 2 5 "channels_last") 0 2 8 10 12
                    ltac:(discriminate) ltac:(discriminate) eq_refl) eq_refl).
Defined.

(** ** The configuration beyond the six entries *)

(** X10: under each of its six keys the configuration holds the attribute
    of the layer, also when the base configuration has an entry under that
    key; under every other key it holds what the dictionary of the base
    configuration holds, or nothing. *)
Theorem get_config_lookup {K} (Layer_get_config : K -> list (string * value))
    (self : CorrelationCost K) (k : string) :
  (get_config Layer_get_config self).1 !! k
  = match config_entry self k with
    | Some v => Some v
    | None => dict_of_items (Layer_get_config (base self)) !! k
    end.
Proof.
  unfold get_config. cbn [fst]. rewrite dict_of_items_app.
  cbn [fold_left fst snd]. unfold config_entry.
  repeat match goal with
  | |- context [(k =? ?s)%string] =>
    destruct (String.eqb_spec k s) as [-> | ?];
    [ repeat (rewrite lookup_insert_ne by discriminate);
      apply lookup_insert_eq
    | rewrite (lookup_insert_ne _ s k) by congruence ]
  end.
  reflexivity.
Qed.

(** X11: the configuration determines the six attributes: two layers with
    the same configuration have the same kernel size, displacement,
    strides, padding and layout tag. *)
Theorem get_config_determines_attributes {K}
    (Layer_get_config : K -> list (string * value))
    (self other : CorrelationCost K) :
  (get_config Layer_get_config self).1 = (get_config Layer_get_config other).1 ->
  attributes self = attributes other.
Proof.
  intros Heq.
  destruct (get_config_entries Layer_get_config self)
    as (E1 & E2 & E3 & E4 & E5 & E6).
  destruct (get_config_entries Layer_get_config other)
    as (F1 & F2 & F3 & F4 & F5 & F6).
  cbv zeta in *. rewrite Heq in E1, E2, E3, E4, E5, E6.
  unfold attributes. congruence.
Qed.

Lemma get_config_determines_attributes_witness :
  attributes (mkCorrelationCost 3 4 1 2 4 "channels_last" true)
  = attributes (mkCorrelationCost 3 4 1 2 4 "channels_last" false).
Proof.
  exact (get_config_determines_attributes empty_get_config
           (mkCorrelationCost 3 4 1 2 4 "channels_last" true)
           (mkCorrelationCost 3 4 1 2 4 "channels_last" false) eq_refl).
Defined.

(** ** The methods of the layer together *)

(** X13: [call] reads [inputs[0]] and [inputs[1]] only: on any list it runs
    as on the first two tensors of the list; on a list of fewer than two
    tensors it ends in [IndexError] with no invocation of the op library
    and the process state untouched. *)
Theorem call_reads_first_two {elt K}
    (fwd : Tensor elt -> Tensor elt -> Attrs -> result (Tensor elt))
    (self : CorrelationCost K) (l : list (Tensor elt)) (w : World) :
  run (call fwd self (TensorList l)) w
  = run (call fwd self (TensorList (take 2 l))) w
  /\ ((length l < 2)%nat ->
      run (call fwd self (TensorList l)) w = (Raise IndexError, w, [])).
Proof.
  split.
  - destruct l as [|a [|b l]]; reflexivity.
  - intros Hlen. destruct l as [|a [|b l]]; cbn in Hlen; try lia; reflexivity.
Qed.

Lemma call_reads_first_two_witness :
  run (call (SpecKernel.forward Z 0 Z.add Z.mul)
         (layer 1 1 1 1 1 "channels_last") (TensorList []))
      (mkWorld ["model"] [])
  = (Raise IndexError, mkWorld ["model"] [], []).
Proof.
  apply (proj2 (call_reads_first_two (SpecKernel.forward Z 0 Z.add Z.mul)
                  (layer 1 1 1 1 1 "channels_last") []
                  (mkWorld ["model"] []))).
  cbn. lia.
Defined.

(** X14: [build] succeeds only on a list, of any length, and when the
    [build] of the base class does; it hands the argument on unchanged and
    leaves the six attributes of the layer as they were. *)
Theorem build_keeps_attributes {K} (Layer_build : K -> shape_arg -> result K)
    (self self' : CorrelationCost K) (input_shape : shape_arg) :
  build Layer_build self input_shape = Ok self' ->
  attributes self' = attributes self
  /\ (exists l, input_shape = ShapeList l)
  /\ Layer_build (base self) input_shape = Ok (base self').
Proof.
  destruct input_shape as [l | s]; [| discriminate].
  unfold build. destruct (Layer_build (base self) (ShapeList l)) as [b | e];
    [| discriminate].
  intros [= <-]. repeat split. eauto.
Qed.

Lemma build_keeps_attributes_witness :
  let self := mkCorrelationCost 3 4 1 2 4 "channels_last" false in
  let self' := mkCorrelationCost 3 4 1 2 4 "channels_last" true in
  attributes self' = attributes self
  /\ (exists l, ShapeList [[1; 5; 5; 3]] = ShapeList l)
  /\ flag_build (base self) (ShapeList [[1; 5; 5; 3]]) = Ok (base self').
Proof.
  intros self self'.
  exact (build_keeps_attributes flag_build self self'
           (ShapeList [[1; 5; 5; 3]]) eq_refl).
Defined.

(** ** The gradient function, whatever the kernel *)

(** X15: the gradient function returns a result exactly when the forward op
    has at least two inputs and the kernel, called on the first two inputs,
    the upstream gradient and the attributes of the op, returns at least two
    tensors; the result is the list of the first two of them, in that
    order, further inputs and outputs being ignored. *)
Theorem correlation_cost_grad_succeeds_iff {elt}
    (bwd : Tensor elt -> Tensor elt -> Tensor elt -> Attrs ->
           result (list (Tensor elt)))
    (op : Operation elt) (g : Tensor elt) (w : World)
    (grads : list (Tensor elt)) :
  outcome (run (_correlation_cost_grad bwd op g) w) = Ok grads <->
  exists a b more ga gb rest,
    op_inputs op = a :: b :: more
    /\ bwd a b g (op_attrs op) = Ok (ga :: gb :: rest)
    /\ grads = [ga; gb].
Proof.
  destruct op as [attrs inputs]. destruct attrs as [ks md s1 s2 pd df].
  unfold outcome, run, _correlation_cost_grad, call_correlation_cost_grad,
    lift, convert_to_tensor, mbind, M_bind, mret, M_ret.
  cbn.
  split.
  - destruct inputs as [|a [|b more]]; cbn; try discriminate.
    destruct (bwd a b g _) as [[|ga [|gb rest]] | e] eqn:Hk; cbn;
      try discriminate.
    intros [= <-]. eexists _, _, _, _, _, _. repeat split. exact Hk.
  - intros (a & b & more & ga & gb & rest & -> & Hk & ->). cbn.
    rewrite Hk. reflexivity.
Qed.

Lemma correlation_cost_grad_succeeds_iff_witness :
  let a := ramp [1; 1; 2; 2] 1 in
  let b := ramp [1; 1; 2; 2] 2 in
  let c := ramp [1; 1; 2; 2] 3 in
  let g := ramp [1; 9; 2; 2] 4 in
  outcome (run (_correlation_cost_grad three_outputs
                  (mkOperation (mkAttrs 1 1 1 1 1 "NCHW") [a; b; c]) g)
             (mkWorld [] []))
  = Ok [b; a].
Proof.
  intros a b c g.
  apply (proj2 (correlation_cost_grad_succeeds_iff three_outputs
                  (mkOperation (mkAttrs 1 1 1 1 1 "NCHW") [a; b; c]) g
                  (mkWorld [] []) [b; a])).
  exists a, b, [c], b, a, [g]. repeat split.
Defined.

(** X16: the failures of the gradient function.  An op with fewer than two
    inputs ends in [IndexError] before the kernel is invoked; a kernel that
    returns fewer than two tensors ends in [IndexError] after its
    invocation; an exception of the kernel is passed on as it is.  In each
    case the process state is left as it was. *)
Theorem correlation_cost_grad_failures {elt}
    (bwd : Tensor elt -> Tensor elt -> Tensor elt -> Attrs ->
           result (list (Tensor elt)))
    (op : Operation elt) (g : Tensor elt) (w : World) :
  ((length (op_inputs op) < 2)%nat ->
   run (_correlation_cost_grad bwd op g) w = (Raise IndexError, w, []))
  /\ (forall a b more grads,
        op_inputs op = a :: b :: more ->
        bwd a b g (op_attrs op) = Ok grads -> (length grads < 2)%nat ->
        run (_correlation_cost_grad bwd op g) w
        = (Raise IndexError, w, [CallCorrelationCostGrad a b g (op_attrs op)]))
  /\ (forall a b more e,
        op_inputs op = a :: b :: more ->
        bwd a b g (op_attrs op) = Raise e ->
        run (_correlation_cost_grad bwd op g) w
        = (Raise e, w, [CallCorrelationCostGrad a b g (op_attrs op)])).
Proof.
  destruct op as [attrs inputs]. destruct attrs as [ks md s1 s2 pd df].
  unfold run, _correlation_cost_grad, call_correlation_cost_grad,
    lift, convert_to_tensor, mbind, M_bind, mret, M_ret.
  cbn.
  split; [| split].
  - intros Hlen. destruct inputs as [|a [|b more]]; cbn in Hlen; try lia;
      reflexivity.
  - intros a b more grads -> Hk Hlen. cbn. rewrite Hk.
    destruct grads as [|ga [|gb rest]]; cbn in Hlen; try lia; reflexivity.
  - intros a b more e -> Hk. cbn. rewrite Hk. reflexivity.
Qed.

Lemma correlation_cost_grad_failures_witness :
  let a := ramp [1; 1; 2; 2] 1 in
  let b := ramp [1; 1; 2; 3] 2 in
  let g := ramp [1; 9; 2; 2] 4 in
  let p := mkAttrs 1 1 1 1 1 "NCHW" in
  let w := mkWorld ["train"] ["Addons>CorrelationCost"] in
  run (_correlation_cost_grad one_output (mkOperation p [a]) g) w
  = (Raise IndexError, w, [])
  /\ run (_correlation_cost_grad one_output (mkOperation p [a; b]) g) w
     = (Raise IndexError, w, [CallCorrelationCostGrad a b g p])
  /\ run (_correlation_cost_grad (SpecKernel.backward Z 0 Z.add Z.mul)
            (mkOperation p [a; b]) g) w
     = (Raise SpecKernel.ShapeMismatch, w, [CallCorrelationCostGrad a b g p]).
Proof.
  intros a b g p w. split; [| split].
  - apply (proj1 (correlation_cost_grad_failures one_output
                    (mkOperation p [a]) g w)).
    cbn. lia.
  - apply (proj1 (proj2 (correlation_cost_grad_failures one_output
                           (mkOperation p [a; b]) g w)) a b [] [g]);
      [reflexivity | reflexivity | cbn; lia].
  - apply (proj2 (proj2 (correlation_cost_grad_failures
                           (SpecKernel.backward Z 0 Z.add Z.mul)
                           (mkOperation p [a; b]) g w)) a b []
             SpecKernel.ShapeMismatch);
      reflexivity.
Defined.
